(** * Complaint-analysis RAG demo: the Python sources as Rocq functions

    The development follows the repository file by file:
    - [Py]: the Python built-ins the scripts rely on ([str.lower],
      [str.strip], [str.split], [in], [str.join]);
    - [Re]: the fragment of the [re] module the cleaning functions use
      (a backtracking matcher and [re.sub]);
    - [Prep], [Preprocessing], [Eda]: the three preprocessing scripts
      ([src/prep.py], [src/preprocessing.py],
      [src/complaints_modular_cleaning_eda.py]);
    - [EmbedIndex]: the row loop of [src/embed_and_index.py];
    - [Rag]: [src/rag_pipeline.py], with printing, the generation model and
      the vector store as effects of a small [io] monad;
    - [Loader], [App]: [load_components] of [src/rag_pipeline.py] and the
      chat callback [respond] of [src/app.py].

    A Python [str] is a [string] whose characters are the code points below
    256; the character tables ([isspace], [lower], the classes of [re]) are
    the ones Python uses on that range. *)

From Stdlib Require Import Bool Arith NArith ZArith List Ascii String Lia.
From Stdlib Require Import Sorting.Sorted Sorting.Permutation.
From Stdlib Require Import Numbers.DecimalString.
Import ListNotations.
Local Open Scope string_scope.

(* ===================================================================== *)
(** ** Python string built-ins *)
(* ===================================================================== *)
Module Py.

Definition code (c : ascii) : N := N_of_ascii c.

Definition between (lo hi : N) (c : ascii) : bool :=
  ((lo <=? code c) && (code c <=? hi))%N.

(** [str.isspace] on one character: TAB..CR, FS..US, SPACE, NEL, NBSP. *)
Definition isspace (c : ascii) : bool :=
  between 9 13 c || between 28 32 c || (code c =? 133)%N || (code c =? 160)%N.

(** [str.lower] on one character: A-Z, and the Latin-1 capitals but the
    multiplication sign. *)
Definition lower_char (c : ascii) : ascii :=
  if between 65 90 c || (between 192 222 c && negb (code c =? 215)%N)
  then ascii_of_N (code c + 32) else c.

Fixpoint lower (s : string) : string :=
  match s with
  | EmptyString => EmptyString
  | String c s' => String (lower_char c) (lower s')
  end.

Definition chars (s : string) : list ascii := list_ascii_of_string s.
Definition str (l : list ascii) : string := string_of_list_ascii l.

Fixpoint lstrip (l : list ascii) : list ascii :=
  match l with
  | c :: l' => if isspace c then lstrip l' else l
  | [] => []
  end.

(** [text.strip()] *)
Definition strip (s : string) : string :=
  str (rev (lstrip (rev (lstrip (chars s))))).

(** [text.split()]: the maximal runs of non-space characters.  [cur] is the
    word being read, most recent character first. *)
Fixpoint split_from (cur : list ascii) (l : list ascii) : list string :=
  match l with
  | [] => match cur with [] => [] | _ => [str (rev cur)] end
  | c :: l' =>
      if isspace c
      then match cur with
           | [] => split_from [] l'
           | _ => str (rev cur) :: split_from [] l'
           end
      else split_from (c :: cur) l'
  end.

Definition split (s : string) : list string := split_from [] (chars s).

(** [needle in hay] *)
Fixpoint contains (needle hay : string) : bool :=
  prefix needle hay ||
  match hay with
  | EmptyString => false
  | String _ hay' => contains needle hay'
  end.

(** [sep.join(parts)] *)
Fixpoint join (sep : string) (parts : list string) : string :=
  match parts with
  | [] => ""
  | [p] => p
  | p :: rest => p ++ sep ++ join sep rest
  end.

(** [len(text)] *)
Definition len (s : string) : nat := String.length s.

(** [str(n)] for an [int] *)
Definition str_of_int (n : Z) : string := NilZero.string_of_int (Z.to_int n).

Definition nl : string := String (ascii_of_N 10) EmptyString.

End Py.

(* ===================================================================== *)
(** ** The fragment of [re] used by the cleaning functions *)
(* ===================================================================== *)
Module Re.
Import Py.

(** Patterns.  Repetition is greedy and alternation ordered, as in [re]. *)
Inductive regex : Type :=
| Cls (f : ascii -> bool)      (* a character class, a literal, [.] *)
| Eps
| Seq (r1 r2 : regex)
| Alt (r1 r2 : regex)
| Star (r : regex)
| WordB.                       (* \b *)

Definition Opt (r : regex) : regex := Alt r Eps.
Definition Plus (r : regex) : regex := Seq r (Star r).

(** [x{2,}] *)
Definition AtLeast2 (r : regex) : regex := Seq r (Seq r (Star r)).

(** [\d]: the decimal digits. *)
Definition digit (c : ascii) : bool := between 48 57 c.
Definition az (c : ascii) : bool := between 97 122 c.
Definition AZ (c : ascii) : bool := between 65 90 c.

(** [\w]: [str.isalnum] or the underscore. *)
Definition word (c : ascii) : bool :=
  digit c || az c || AZ c || (code c =? 95)%N
  || (code c =? 170)%N || (code c =? 178)%N || (code c =? 179)%N
  || (code c =? 181)%N || (code c =? 185)%N || (code c =? 186)%N
  || between 188 190 c || between 192 214 c || between 216 246 c
  || between 248 255 c.

(** [.] without DOTALL *)
Definition dot (c : ascii) : bool := negb (code c =? 10)%N.

Definition is_char (a c : ascii) : bool := (code a =? code c)%N.

(** One literal character; under [re.IGNORECASE] the cases are folded. *)
Definition lit_char (ignorecase : bool) (a : ascii) : regex :=
  Cls (fun c => if ignorecase
                then is_char (lower_char a) (lower_char c)
                else is_char a c).

Fixpoint lit_with (ignorecase : bool) (s : string) : regex :=
  match s with
  | EmptyString => Eps
  | String a EmptyString => lit_char ignorecase a
  | String a s' => Seq (lit_char ignorecase a) (lit_with ignorecase s')
  end.

Definition lit : string -> regex := lit_with false.

(** Is the position between [prev] and the head of [s] a word boundary? *)
Definition at_boundary (prev : option ascii) (s : list ascii) : bool :=
  let w o := match o with Some c => word c | None => false end in
  xorb (w prev) (w (hd_error s)).

(** The matcher, in continuation-passing style: [run r k s prev] matches [r]
    at the head of [s] ([prev] is the character before it) and hands the rest
    to [k]; [None] makes the matcher backtrack.  The result is what is left
    of the input after the match. *)
Fixpoint run (r : regex)
    (k : list ascii -> option ascii -> option (list ascii))
    (s : list ascii) (prev : option ascii) {struct r} : option (list ascii) :=
  match r with
  | Cls f =>
      match s with
      | c :: s' => if f c then k s' (Some c) else None
      | [] => None
      end
  | Eps => k s prev
  | Seq a b => run a (fun s' p' => run b k s' p') s prev
  | Alt a b =>
      match run a k s prev with
      | Some rest => Some rest
      | None => run b k s prev
      end
  | Star a =>
      (fix loop (n : nat) (s : list ascii) (prev : option ascii)
         : option (list ascii) :=
         match n with
         | O => k s prev
         | S n' =>
             match run a (fun s' p' =>
                            if (List.length s' <? List.length s)%nat
                            then loop n' s' p' else None) s prev with
             | Some rest => Some rest
             | None => k s prev
             end
         end) (List.length s) s prev
  | WordB => if at_boundary prev s then k s prev else None
  end.

(** [pattern.match] at one position: the rest of the input after the match. *)
Definition match_at (r : regex) (s : list ascii) (prev : option ascii)
  : option (list ascii) :=
  run r (fun rest _ => Some rest) s prev.

(** [re.sub(pattern, repl, text)] with [repl] a function of the matched text,
    for patterns that match no empty string (every pattern of the
    repository consumes a character): leftmost match first, the scan resumes
    after it.  [fuel] bounds the number of positions visited. *)
Fixpoint sub_from (fuel : nat) (r : regex) (repl : list ascii -> list ascii)
    (s : list ascii) (prev : option ascii) : list ascii :=
  match fuel with
  | O => s
  | S fuel' =>
      match s with
      | [] => []
      | c :: s' =>
          match match_at r s prev with
          | Some rest =>
              let n := List.length s - List.length rest in
              match n with
              | O => c :: sub_from fuel' r repl s' (Some c)
              | S _ =>
                  let m := firstn n s in
                  (repl m ++ sub_from fuel' r repl rest (Some (last m c)))%list
              end
          | None => c :: sub_from fuel' r repl s' (Some c)
          end
      end
  end.

Definition sub_fn (r : regex) (repl : string -> string) (text : string)
  : string :=
  str (sub_from (List.length (chars text)) r
         (fun m => chars (repl (str m))) (chars text) None).

(** [re.sub(pattern, repl, text)] with a constant replacement. *)
Definition sub (r : regex) (repl : string) (text : string) : string :=
  sub_fn r (fun _ => repl) text.

End Re.

(* ===================================================================== *)
(** ** Data frames, one row at a time *)
(* ===================================================================== *)

(** A row of the raw CSV, with the three columns the scripts read.  An empty
    narrative cell is pandas' NaN, here [None]. *)
Record raw_row : Type := RawRow {
  complaint_id : Z;
  raw_product : string;
  raw_narrative : option string
}.

(** [len(x.split())] *)
Definition word_count (s : string) : nat := List.length (Py.split s).

(* ===================================================================== *)
(** ** [src/prep.py] *)
(* ===================================================================== *)
Module Prep.
Import Py.

Definition target_products : list string :=
  [ "Credit card";
    "Personal loan";
    "Buy Now, Pay Later (BNPL)";
    "Savings account";
    "Money transfers" ].

Definition boilerplate_patterns : list string :=
  [ "consumer complaint narrative";
    "the following is a narrative that was provided by the consumer to the cfpb";
    "i am writing to file a complaint";
    "i am writing to express my concern";
    "this letter is to inform you";
    "to whom it may concern";
    "this complaint is regarding";
    "i would like to report";
    "i would like to file a complaint";
    "i would like to complain";
    "i am writing you this letter to inform you";
    "i am writing this letter to you for the reason of" ].

(** [[^a-zA-Z0-9\s]] *)
Definition special_char (c : ascii) : bool :=
  negb (Re.az c || Re.AZ c || Re.digit c || isspace c).

(** The loop [for pattern in boilerplate_patterns: text = re.sub(...)]. *)
Definition strip_boilerplate (text : string) : string :=
  fold_left (fun t pattern => Re.sub (Re.lit_with true pattern) "" t)
    boilerplate_patterns text.

Definition clean_text (text : string) : string :=
  let text := lower text in
  let text := strip_boilerplate text in
  let text := Re.sub (Re.Cls special_char) "" text in
  strip (Re.sub (Re.Plus (Re.Cls isspace)) " " text).

(** [df['Product'].isin(target_products)] *)
Definition isin (product : string) (l : list string) : bool :=
  existsb (String.eqb product) l.

(** A row of the file [run_preprocessing] saves. *)
Record saved_row : Type := SavedRow {
  Complaint_ID : Z;
  Product : string;
  Cleaned_Narrative : string
}.

(** What [run_preprocessing] does to one row: the product filter, the
    [dropna] on the narrative, the cleaning, and the filter on the length in
    characters of the cleaned narrative. *)
Definition run_preprocessing_row (r : raw_row) : option saved_row :=
  if isin (raw_product r) target_products then
    match raw_narrative r with
    | None => None
    | Some narrative =>
        let cleaned := clean_text narrative in
        if (0 <? len (strip cleaned))%nat
        then Some (SavedRow (complaint_id r) (raw_product r) cleaned)
        else None
    end
  else None.

End Prep.

(* ===================================================================== *)
(** ** [src/preprocessing.py] *)
(* ===================================================================== *)
Module Preprocessing.
Import Py.

(** [[^a-z0-9\s]] *)
Definition special_char (c : ascii) : bool :=
  negb (Re.az c || Re.digit c || isspace c).

Definition clean_text (text : string) : string :=
  let text := lower text in
  let text := Re.sub (Re.Plus (Re.Cls isspace)) " " text in
  let text := Re.sub (Re.Cls special_char) "" text in
  strip text.

(** [any(term in product for term in terms)] *)
Definition any_in (terms : list string) (product : string) : bool :=
  existsb (fun term => contains term product) terms.

Definition loan_terms : list string :=
  [ "personal loan"; "consumer loan"; "payday loan";
    "title loan"; "advance loan"; "vehicle loan" ].

Definition map_to_target_product (product narrative : string)
  : option string :=
  let product := lower product in
  let narrative := lower narrative in
  if contains "credit card" product || contains "prepaid card" product then
    Some "Credit card"
  else if any_in loan_terms product then
    if contains "buy now pay later" narrative || contains "bnpl" narrative
    then Some "Buy Now, Pay Later"
    else Some "Personal loan"
  else if contains "checking or savings" product
          || contains "bank account" product
          || contains "savings" product then
    Some "Savings account"
  else if contains "money transfer" product
          || contains "virtual currency" product
          || contains "money service" product then
    Some "Money transfer"
  else None.

Record filtered_row : Type := FilteredRow {
  f_complaint_id : Z;
  f_product : string;
  cleaned_narrative : string;
  narrative_len : nat
}.

(** The body of the chunk loop of [run_preprocessing], for one row:
    [dropna], the product mapping, the cleaning and the length filter. *)
Definition run_preprocessing_row (r : raw_row) : option filtered_row :=
  match raw_narrative r with
  | None => None
  | Some narrative =>
      match map_to_target_product (raw_product r) narrative with
      | None => None
      | Some product =>
          let cleaned := clean_text narrative in
          let n := word_count cleaned in
          if (30 <? len (strip narrative))%nat
             && (10 <? n)%nat && (n <? 1000)%nat
          then Some (FilteredRow (complaint_id r) product cleaned n)
          else None
      end
  end.

End Preprocessing.

(* ===================================================================== *)
(** ** [src/complaints_modular_cleaning_eda.py] *)
(* ===================================================================== *)
Module Eda.
Import Py Re.

Definition cat (rs : list regex) : regex := fold_right Seq Eps rs.
Definition alt (words : list string) : regex :=
  match rev words with
  | [] => Eps
  | w :: ws => fold_left (fun r w' => Alt (lit w') r) ws (lit w)
  end.

Definition sp : regex := Cls isspace.
Definition any : regex := Star (Cls dot).
Definition chr (s : string) (c : ascii) : bool := contains (String c EmptyString) s.

Definition boilerplate : list regex :=
  [ (* (i\s?(am|have)\s?(writing|filing|submitting).*complaint) *)
    cat [lit "i"; Opt sp; alt ["am"; "have"]; Opt sp;
         alt ["writing"; "filing"; "submitting"]; any; lit "complaint"];
    (* (this\s?(is|concerns).*complaint) *)
    cat [lit "this"; Opt sp; alt ["is"; "concerns"]; any; lit "complaint"];
    (* (dear\s.*(sir|madam|representative)) *)
    cat [lit "dear"; sp; any; alt ["sir"; "madam"; "representative"]];
    (* (company\s?(name)?\s?:.*\w+) *)
    cat [lit "company"; Opt sp; Opt (lit "name"); Opt sp; lit ":"; any;
         Plus (Cls word)];
    (* (account\s?(number|#)?\s?:.*[\w-]+) *)
    cat [lit "account"; Opt sp; Opt (alt ["number"; "#"]); Opt sp; lit ":";
         any; Plus (Cls (fun c => word c || chr "-" c))];
    (* (date\s?(of)?\s?(incident|complaint).*[\w/]+) *)
    cat [lit "date"; Opt sp; Opt (lit "of"); Opt sp;
         alt ["incident"; "complaint"]; any;
         Plus (Cls (fun c => word c || chr "/" c))];
    (* (reference\s?(number|id).*\w+) *)
    cat [lit "reference"; Opt sp; alt ["number"; "id"]; any; Plus (Cls word)];
    (* (phone\s?(number)?.*[\d-]+) *)
    cat [lit "phone"; Opt sp; Opt (lit "number"); any;
         Plus (Cls (fun c => digit c || chr "-" c))];
    (* xx+ *)
    cat [lit "x"; Plus (lit "x")];
    (* (\bsincerely\b|\bregards\b) *)
    Alt (cat [WordB; lit "sincerely"; WordB]) (cat [WordB; lit "regards"; WordB])
  ].

(** [[^a-z0-9\s.,!?$%]] *)
Definition disallowed (c : ascii) : bool :=
  negb (az c || digit c || isspace c || chr ".,!?$%" c).

(** The argument is a [str] here (the caller applies [astype(str)]), so the
    [isinstance] guard does not fire. *)
Definition clean_text (text : string) : string :=
  let text := lower text in
  let text := sub (Cls disallowed) "" text in
  let text := fold_left (fun t pattern => sub pattern "" t) boilerplate text in
  (* \b([a-z]{2,})\b, replaced by m.group(1).lower() *)
  let text := sub_fn (cat [WordB; AtLeast2 (Cls az); WordB]) lower text in
  strip (sub (Plus sp) " " text).

(** The dictionary, in insertion order. *)
Definition TARGET_PRODUCTS : list (string * list string) :=
  [ ("Credit card", ["credit card"; "prepaid card"]);
    ("Personal loan", ["personal loan"; "consumer loan"]);
    ("Buy Now, Pay Later", ["buy now pay later"; "bnpl"]);
    ("Savings account", ["savings account"; "bank account"]);
    ("Money transfer", ["money transfer"; "wire transfer"]) ].

(** The [for standardized, variants in table.items()] loop, which returns at
    the first hit. *)
Fixpoint filter_products_in (table : list (string * list string))
    (product : string) : option string :=
  match table with
  | [] => None
  | (standardized, variants) :: rest =>
      if existsb (fun variant => contains variant product) variants
      then Some standardized
      else filter_products_in rest product
  end.

Definition filter_products (product : string) : option string :=
  filter_products_in TARGET_PRODUCTS (lower product).

Record kept_row : Type := KeptRow {
  k_complaint_id : Z;
  product : string;
  narrative : string;
  cleaned_narrative : string;
  k_word_count : nat
}.

(** [process_complaints] on one row: the product filter, the narrative
    filter, the cleaning, the word count and the length filter. *)
Definition process_complaints_row (r : raw_row) : option kept_row :=
  match filter_products (raw_product r) with
  | None => None
  | Some product =>
      match raw_narrative r with
      | None => None
      | Some narrative =>
          let cleaned := clean_text narrative in
          let n := word_count cleaned in
          if (10 <? n)%nat && (n <? 1000)%nat
          then Some (KeptRow (complaint_id r) product narrative cleaned n)
          else None
      end
  end.

End Eda.

(* ===================================================================== *)
(** ** LangChain documents *)
(* ===================================================================== *)

Inductive pyval : Type :=
| PyInt (n : Z)
| PyStr (s : string).

Record Document : Type := Doc {
  page_content : string;
  metadata : list (string * pyval)
}.

(* ===================================================================== *)
(** ** [src/embed_and_index.py]: the row loop *)
(* ===================================================================== *)
Module EmbedIndex.
Import Py.

(** The arguments the script gives [RecursiveCharacterTextSplitter]. *)
Record splitter_config : Type := SplitterConfig {
  chunk_size : nat;
  chunk_overlap : nat;
  add_start_index : bool
}.

Definition text_splitter_config : splitter_config :=
  SplitterConfig 1500 150 true.

Record csv_row : Type := CsvRow {
  Cleaned_Narrative : option string;   (* None: an empty cell, read as NaN *)
  Complaint_ID : Z;
  Product : string
}.

(** [str(cell)] *)
Definition str_of_cell (c : option string) : string :=
  match c with Some s => s | None => "nan" end.

Section RowLoop.

(** [text_splitter.split_documents], LangChain's, as configured above. *)
Variable split_documents : splitter_config -> list Document -> list Document.

(** The body of [for index, row in df.iterrows()]: the chunks one row adds
    to [documents]. *)
Definition chunks_of_row (row : csv_row) : list Document :=
  let narrative := strip (str_of_cell (Cleaned_Narrative row)) in
  if negb (String.eqb narrative "") then
    let doc := Doc narrative
                 [ ("complaint_id", PyInt (Complaint_ID row));
                   ("product", PyStr (Product row));
                   ("original_text_length", PyInt (Z.of_nat (len narrative))) ]
    in split_documents text_splitter_config [doc]
  else [].

Definition documents (df : list csv_row) : list Document :=
  flat_map chunks_of_row df.

End RowLoop.
End EmbedIndex.

(* ===================================================================== *)
(** ** [src/rag_pipeline.py] *)
(* ===================================================================== *)
Module Rag.
Import Py.

(** *** Effects: standard output, exceptions, the model and the store *)

(** The exceptions [except Exception] catches, with their message. *)
Inductive exn : Type := Exception (msg : string).

Definition message (e : exn) : string := let 'Exception m := e in m.

Inductive outcome (A : Type) : Type :=
| Returned (a : A)
| Raised (e : exn).
Arguments Returned {A} a.
Arguments Raised {A} e.

(** The arguments of one call of the text-generation pipeline. *)
Record llm_args : Type := LlmArgs {
  prompt : string;
  max_new_tokens : Z;
  do_sample : bool;
  truncation : bool
}.

Inductive event : Type :=
| Printed (line : string)
| Generated (args : llm_args)
| Searched (query : string) (k : Z).

(** What a run can observe and change: the events so far, oldest first, and
    the state of the random number generator the model samples from. *)
Record world : Type := World {
  trace : list event;
  rng : N
}.

Definition io (A : Type) : Type := world -> outcome A * world.

Definition ret {A} (a : A) : io A := fun w => (Returned a, w).

Definition bind {A B} (c : io A) (f : A -> io B) : io B :=
  fun w =>
    match c w with
    | (Returned a, w') => f a w'
    | (Raised e, w') => (Raised e, w')
    end.

Definition raise {A} (e : exn) : io A := fun w => (Raised e, w).

(** [try: c except Exception as e: handler e] *)
Definition try_except {A} (c : io A) (handler : exn -> io A) : io A :=
  fun w =>
    match c w with
    | (Returned a, w') => (Returned a, w')
    | (Raised e, w') => handler e w'
    end.

Definition emit (ev : event) : io unit :=
  fun w => (Returned tt, World (trace w ++ [ev]) (rng w)).

Definition print (line : string) : io unit := emit (Printed line).

Declare Scope io_scope.
Delimit Scope io_scope with io.
Notation "x <- c ;; k" := (bind c (fun x => k))
  (at level 100, c at next level, right associativity) : io_scope.
Notation "c ;; k" := (bind c (fun _ => k))
  (at level 100, right associativity) : io_scope.
Local Open Scope io_scope.

(** One generation: the dictionary the pipeline returns for one output. *)
Definition generation : Type := list (string * string).

(** A loaded [transformers] pipeline: from the call's arguments and the
    generator's state to the list of generations (or an exception) and the
    generator's new state. *)
Definition Pipeline : Type :=
  llm_args -> N -> outcome (list generation) * N.

(** [llm_pipeline(prompt, ...)] *)
Definition call_pipeline (p : Pipeline) (args : llm_args)
  : io (list generation) :=
  fun w =>
    let (r, g) := p args (rng w) in
    (r, World (trace w ++ [Generated args]) g).

(** A loaded FAISS store: the number of vectors it holds and its search. *)
Record FAISS : Type := Store {
  ntotal : nat;
  similarity_search : string -> Z -> outcome (list Document)
}.

(** [db.similarity_search(query=question, k=k)] *)
Definition call_similarity_search (db : FAISS) (question : string) (k : Z)
  : io (list Document) :=
  fun w =>
    (similarity_search db question k,
     World (trace w ++ [Searched question k]) (rng w)).

(** [xs[0]] *)
Definition first_item {A} (xs : list A) : io A :=
  match xs with
  | x :: _ => ret x
  | [] => raise (Exception "list index out of range")
  end.

Fixpoint lookup (key : string) (d : generation) : option string :=
  match d with
  | [] => None
  | (k, v) :: d' => if String.eqb k key then Some v else lookup key d'
  end.

(** [d[key]] *)
Definition getitem (d : generation) (key : string) : io string :=
  match lookup key d with
  | Some v => ret v
  | None => raise (Exception ("'" ++ key ++ "'"))
  end.

(** *** The functions of the module *)

Definition retrieve_chunks (question : string) (db : option FAISS) (k : Z)
  : io (list Document) :=
  match db with
  | None =>
      print "Vector store not initialized. Cannot retrieve chunks.";;
      ret []
  | Some db =>
      print ("Retrieving top " ++ str_of_int k ++ " chunks for query: '"
             ++ question ++ "'");;
      try_except
        (docs <- call_similarity_search db question k;;
         print ("Retrieved " ++ str_of_int (Z.of_nat (List.length docs))
                ++ " chunks.");;
         ret docs)
        (fun e =>
           print ("Error during retrieval: " ++ message e);;
           ret [])
  end.

Definition NOT_INITIALIZED : string := "LLM generator not initialized.".

Definition INSUFFICIENT : string :=
  "I don't have enough information from the retrieved context to answer this question.".

Definition GENERATION_ERROR : string :=
  "An error occurred during answer generation.".

(** [prompt_template.format(context=context_text, question=question)] *)
Definition format_prompt (context question : string) : string :=
  "You are a financial analyst assistant for CrediTrust." ++ nl ++
  "Your task is to answer questions about customer complaints." ++ nl ++
  "Use ONLY the following retrieved complaint excerpts to formulate your answer." ++ nl ++
  "If the context doesn't contain the answer, state that you don't have enough information." ++ nl ++
  nl ++
  "Context:" ++ nl ++
  context ++ nl ++
  nl ++
  "Question: " ++ question ++ nl ++
  "Answer:".

Definition generate_answer (question : string)
    (context_chunks : list Document) (llm_pipeline : option Pipeline)
  : io string :=
  match llm_pipeline with
  | None => ret NOT_INITIALIZED
  | Some llm =>
      match context_chunks with
      | [] => ret INSUFFICIENT
      | _ :: _ =>
          let context_text :=
            join (nl ++ nl) (map page_content context_chunks) in
          let formatted_prompt := format_prompt context_text question in
          print (nl ++ "Generating answer with LLM...");;
          try_except
            (outputs <- call_pipeline llm
                          (LlmArgs formatted_prompt 200 false true);;
             first <- first_item outputs;;
             generated_response <- getitem first "generated_text";;
             ret generated_response)
            (fun e =>
               print ("Error during LLM generation: " ++ message e);;
               ret GENERATION_ERROR)
      end
  end.

Definition run_rag_pipeline (question : string) (db : option FAISS)
    (llm_pipeline : option Pipeline) (k : Z)
  : io (string * list Document) :=
  retrieved_docs <- retrieve_chunks question db k;;
  answer <- generate_answer question retrieved_docs llm_pipeline;;
  ret (answer, retrieved_docs).

End Rag.

(* ===================================================================== *)
(** ** Runs of [rag_pipeline.py]: the worlds they pass through, and the
       conditions the statements below put on the model and the store *)
(* ===================================================================== *)
Module Runs.
Import Py Rag.

(** The prompt [generate_answer] builds from its arguments. *)
Definition prompt_for (question : string) (context_chunks : list Document)
  : string :=
  format_prompt (join (nl ++ nl) (map page_content context_chunks)) question.

(** The arguments of the single model call. *)
Definition call_args (question : string) (context_chunks : list Document)
  : llm_args :=
  LlmArgs (prompt_for question context_chunks) 200 false true.

Definition announce (w : world) : world :=
  World (trace w ++ [Printed (nl ++ "Generating answer with LLM...")]) (rng w).

Definition after_call (args : llm_args) (g : N) (w : world) : world :=
  World (trace (announce w) ++ [Generated args]) g.

Definition log_failure (msg : string) (w : world) : world :=
  World (trace w ++ [Printed ("Error during LLM generation: " ++ msg)]) (rng w).

Definition absent_note (w : world) : world :=
  World (trace w
         ++ [Printed "Vector store not initialized. Cannot retrieve chunks."])
        (rng w).

Definition search_note (question : string) (k : Z) (w : world) : world :=
  World (trace w
         ++ [Printed ("Retrieving top " ++ str_of_int k
                      ++ " chunks for query: '" ++ question ++ "'")]
         ++ [Searched question k])
        (rng w).

Definition add_line (line : string) (w : world) : world :=
  World (trace w ++ [Printed line]) (rng w).

(** A model decodes greedily when, asked not to sample, its output does not
    depend on the state of the random number generator. *)
Definition greedy_deterministic (llm : Pipeline) : Prop :=
  forall (args : llm_args) (g g' : N),
    do_sample args = false -> fst (llm args g) = fst (llm args g').

Definition decoding_fixed (llm_pipeline : option Pipeline) : Prop :=
  match llm_pipeline with
  | Some llm => greedy_deterministic llm
  | None => True
  end.

(** An event that, when it is a model call, asks for greedy decoding and at
    most 200 new tokens. *)
Definition bounded_greedy_call (ev : event) : Prop :=
  match ev with
  | Generated args => do_sample args = false /\ max_new_tokens args = 200%Z
  | _ => True
  end.

(** The retrieval fails: there is no store, or its search raises. *)
Definition retrieval_fails (db : option FAISS) (question : string) (k : Z)
  : Prop :=
  match db with
  | None => True
  | Some store => exists e, similarity_search store question k = Raised e
  end.

End Runs.

(* ===================================================================== *)
(** ** The specification's wording, and sample inputs *)
(* ===================================================================== *)
Module Spec.
Import Py.

(** The category mapping as the specification words it: test the lower-cased
    category against an ordered table of (standard category, substring
    triggers); the first matching category wins, no match excludes. *)
Definition triggers_match (s : string) (entry : string * list string) : bool :=
  existsb (fun trigger => contains trigger s) (snd entry).

Definition first_match (table : list (string * list string)) (s : string)
  : option string :=
  option_map fst (find (triggers_match s) table).

Definition category_of (table : list (string * list string))
    (raw_category : string) : option string :=
  first_match table (lower raw_category).

(** The table [map_to_target_product] tests, branch by branch. *)
Definition branch_table : list (string * list string) :=
  [ ("Credit card", ["credit card"; "prepaid card"]);
    ("Personal loan", Preprocessing.loan_terms);
    ("Savings account", ["checking or savings"; "bank account"; "savings"]);
    ("Money transfer", ["money transfer"; "virtual currency"; "money service"]) ].

(** The narrative test inside the loan branch. *)
Definition mentions_bnpl (narrative : string) : bool :=
  contains "buy now pay later" (lower narrative)
  || contains "bnpl" (lower narrative).

(** The reclassification of a personal-loan complaint by its narrative. *)
Definition reclassify (narrative : string) (category : option string)
  : option string :=
  match category with
  | Some name =>
      if String.eqb name "Personal loan" && mentions_bnpl narrative
      then Some "Buy Now, Pay Later"
      else Some name
  | None => None
  end.

(** The fixed standard categories. *)
Definition standard_categories : list string :=
  [ "Credit card"; "Personal loan"; "Buy Now, Pay Later";
    "Savings account"; "Money transfer" ].

Definition standard_or_excluded (category : option string) : Prop :=
  match category with
  | Some name => In name standard_categories
  | None => True
  end.

End Spec.

Module Samples.
Import Py Rag.

Definition scenario1 : string :=
  "I am writing to file a complaint my credit card interest rate was increased without notice".

Definition boilerplate_phrase : string := "i am writing to file a complaint".

Definition eleven_words : string := "a b c d e f g h i j k".

Definition five_words : string := "my card was charged twice".

Definition w0 : world := World [] 0.

Definition doc1 : Document :=
  Doc "my card was charged twice"
      [("complaint_id", PyInt 7); ("product", PyStr "Credit card")].

(** A store that holds one vector and returns it for any [k >= 1]. *)
Definition one_doc_store : FAISS :=
  Store 1 (fun _ k => Returned (if (0 <? k)%Z then [doc1] else [])).

Definition empty_store : FAISS := Store 0 (fun _ _ => Returned []).

Definition broken_store : FAISS :=
  Store 1 (fun _ _ => Raised (Exception "index file is corrupt")).

(** A model that answers greedily with a fixed text, and draws on the
    generator's state when asked to sample. *)
Definition toy_model : Pipeline :=
  fun args g =>
    if do_sample args
    then (Returned [[("generated_text", "sample " ++ str_of_int (Z.of_N g))]],
          N.succ g)
    else (Returned [[("generated_text", "billing errors")]], g).

Definition failing_model : Pipeline :=
  fun _ g => (Raised (Exception "CUDA out of memory"), g).

End Samples.

(* ===================================================================== *)
(** ** Texts: alphabets, spacing and the matcher's loop *)
(* ===================================================================== *)
Module Text.
Import Py.

(** The loop of the star case of [Re.run], by name. *)
Section StarLoop.
Variable ra : (list ascii -> option ascii -> option (list ascii)) ->
              list ascii -> option ascii -> option (list ascii).
Variable k : list ascii -> option ascii -> option (list ascii).

Fixpoint star_loop (n : nat) (s : list ascii) (prev : option ascii)
  : option (list ascii) :=
  match n with
  | O => k s prev
  | S n' =>
      match ra (fun s' p' =>
                  if (List.length s' <? List.length s)%nat
                  then star_loop n' s' p' else None) s prev with
      | Some rest => Some rest
      | None => k s prev
      end
  end.
End StarLoop.

(** [rest] is what is left of [s] after a prefix. *)
Definition suffix_of (rest s : list ascii) : Prop :=
  exists pre, s = (pre ++ rest)%list.

(** A continuation that returns what is left of its input. *)
Definition suffix_cont
    (k : list ascii -> option ascii -> option (list ascii)) : Prop :=
  forall s p rest, k s p = Some rest -> suffix_of rest s.

(** Every character of the text satisfies [P]. *)
Definition only_chars (P : ascii -> bool) (s : string) : Prop :=
  Forall (fun c => P c = true) (chars s).

(** No two whitespace characters stand side by side. *)
Definition single_spaced_list (l : list ascii) : Prop :=
  forall pre c d post,
    l = (pre ++ c :: d :: post)%list -> isspace c && isspace d = false.

Definition single_spaced (s : string) : Prop := single_spaced_list (chars s).

Definition space : ascii := " "%char.

(** [[a-z0-9 ]] *)
Definition plain_char (c : ascii) : bool :=
  Re.az c || Re.digit c || Re.is_char space c.


(** [\s+] *)
Definition ws_plus : Re.regex := Re.Plus (Re.Cls isspace).

(** [l] stands inside [big], in one piece. *)
Definition infix_of (l big : list ascii) : Prop :=
  exists a b, big = (a ++ l ++ b)%list.

(** A text has no two whitespace characters side by side; the boolean
    form, for lists. *)
Fixpoint spaced_once (l : list ascii) : bool :=
  match l with
  | c :: l' =>
      match l' with
      | d :: _ => negb (isspace c && isspace d)
      | [] => true
      end && spaced_once l'
  | [] => true
  end.

(** A character that is no whitespace, or is the space. *)
Definition space_or_not (c : ascii) : Prop := isspace c = false \/ c = space.

(** [[a-z0-9 .,!?$%]] *)
Definition eda_char (c : ascii) : bool :=
  Re.az c || Re.digit c || Re.is_char space c || Eda.chr ".,!?$%" c.

(** Not an upper-case ASCII letter. *)
Definition not_upper (c : ascii) : bool := negb (Re.AZ c).

(** Whitespace only as the space character. *)
Definition tidy (c : ascii) : bool := negb (isspace c) || Re.is_char space c.

(** [[a-z0-9\s.,!?$%]], the characters [Eda.clean_text] keeps at first. *)
Definition eda_kept (c : ascii) : bool :=
  Re.az c || Re.digit c || isspace c || Eda.chr ".,!?$%" c.

End Text.

(* ===================================================================== *)
(** ** What a run of the pipeline retrieves, calls and answers *)
(* ===================================================================== *)
Module Calls.
Import Py Rag Runs.

(** What [retrieve_chunks] hands back, as a function of the store. *)
Definition retrieved (db : option FAISS) (question : string) (k : Z)
  : list Document :=
  match db with
  | Some store =>
      match similarity_search store question k with
      | Returned docs => docs
      | Raised _ => []
      end
  | None => []
  end.

(** The calls to the store and the model among the events, in order. *)
Definition external_calls (evs : list event) : list event :=
  filter (fun ev => match ev with Printed _ => false | _ => true end) evs.

(** The answer [generate_answer] reads off the model's output. *)
Definition answer_of (outputs : list generation) : string :=
  match outputs with
  | first :: _ =>
      match lookup "generated_text" first with
      | Some text => text
      | None => GENERATION_ERROR
      end
  | [] => GENERATION_ERROR
  end.

End Calls.

(* ===================================================================== *)
(** ** [src/rag_pipeline.py]: [load_components] *)
(* ===================================================================== *)
Module Loader.
Import Py Rag.
Local Open Scope io_scope.

(** What a constructor of a component can raise: [ImportError], which the
    first two handlers single out, or another [Exception]. *)
Inductive load_error : Type :=
| ImportError (msg : string)
| OtherError (msg : string).

Definition error_text (e : load_error) : string :=
  match e with ImportError m => m | OtherError m => m end.

Inductive loaded (A : Type) : Type :=
| Loaded (a : A)
| Failed (e : load_error).
Arguments Loaded {A} a.
Arguments Failed {A} e.

Record Embeddings : Type := Embedder { model_name : string }.

(** The process environment [load_components] reads: the libraries'
    constructors, the file system and the environment variable. *)
Record environment : Type := Env {
  VECTOR_STORE_PATH : string;
  SentenceTransformerEmbeddings : string -> loaded Embeddings;
  path_exists : string -> bool;
  load_local : string -> Embeddings -> bool -> loaded FAISS;
  CUDA_VISIBLE_DEVICES : option string;
  pipeline : string -> string -> Z -> loaded Pipeline
}.

(** [set_seed(n)] *)
Definition set_seed (n : N) : io unit :=
  fun w => (Returned tt, World (trace w) n).

(** [0 if os.environ.get('CUDA_VISIBLE_DEVICES', '0') == '0' else -1] *)
Definition device (env : environment) : Z :=
  let visible := match CUDA_VISIBLE_DEVICES env with
                 | Some v => v
                 | None => "0"
                 end in
  if String.eqb visible "0" then 0%Z else (-1)%Z.

Definition components : Type :=
  (option FAISS * option Embeddings * option Pipeline)%type.

Definition nothing : components := (None, None, None).

Definition load_components (env : environment) : io components :=
  print "--- Loading RAG Components ---";;
  match SentenceTransformerEmbeddings env "all-MiniLM-L6-v2" with
  | Failed (ImportError _) =>
      print "Error: 'sentence-transformers' library not found. Please install it: pip install sentence-transformers";;
      ret nothing
  | Failed (OtherError e) =>
      print ("Error loading embedding model: " ++ e);;
      ret nothing
  | Loaded embeddings =>
      print ("Embedding model '" ++ model_name embeddings
             ++ "' loaded successfully.");;
      if path_exists env (VECTOR_STORE_PATH env) then
        match load_local env (VECTOR_STORE_PATH env) embeddings true with
        | Failed (ImportError _) =>
            print "Error: 'faiss-cpu' library not found. Please install it: pip install faiss-cpu";;
            ret nothing
        | Failed (OtherError e) =>
            print ("Error loading FAISS vector store from '"
                   ++ VECTOR_STORE_PATH env ++ "': " ++ e);;
            print "Ensure the index was saved correctly by 'src/embed_and_index.py'.";;
            ret nothing
        | Loaded db =>
            print "FAISS vector store loaded successfully!";;
            match pipeline env "text2text-generation" "t5-small" (device env)
            with
            | Failed e =>
                print ("Error loading text generation LLM: " ++ error_text e);;
                print "Please ensure 'transformers' and 'accelerate' libraries are installed and model can be downloaded.";;
                ret nothing
            | Loaded llm_pipeline =>
                print "Text generation LLM (t5-small) loaded successfully.";;
                set_seed 42;;
                print "--- All RAG Components Loaded ---";;
                ret (Some db, Some embeddings, Some llm_pipeline)
            end
        end
      else
        (print ("Error: Vector store directory '" ++ VECTOR_STORE_PATH env
                ++ "' not found.");;
         print "Please run 'src/embed_and_index.py' first to generate and persist the vector store.";;
         ret nothing)
  end.

(** All three constructors succeed and the store's directory exists. *)
Definition all_load (env : environment) (db : FAISS) (embeddings : Embeddings)
    (llm_pipeline : Pipeline) : Prop :=
  SentenceTransformerEmbeddings env "all-MiniLM-L6-v2" = Loaded embeddings
  /\ path_exists env (VECTOR_STORE_PATH env) = true
  /\ load_local env (VECTOR_STORE_PATH env) embeddings true = Loaded db
  /\ pipeline env "text2text-generation" "t5-small" (device env)
     = Loaded llm_pipeline.

End Loader.

(* ===================================================================== *)
(** ** [src/app.py]: the chat callback *)
(* ===================================================================== *)
Module App.
Import Py Rag Loader.
Local Open Scope io_scope.

(** One entry of the chat history: [{"role": ..., "content": ...}]. *)
Record message : Type := Msg { role : string; content : string }.

Definition NOT_READY : string :=
  "Sorry, the RAG system is not initialized. Please check the server logs for errors.".

Definition SEARCHING : string :=
  "Searching for relevant complaints and generating response...".

Definition INTERNAL_ERROR : string :=
  "An internal error occurred while generating the response. Please try again later.".

Definition backslash : ascii := ascii_of_N 92.
Definition star : ascii := "*"%char.
Definition underscore : ascii := "_"%char.
Definition quote : string := String (ascii_of_N 34) EmptyString.

(** [d.get(key, default)] *)
Fixpoint get (d : list (string * pyval)) (key : string) (default : pyval)
  : pyval :=
  match d with
  | [] => default
  | (k, v) :: d' => if String.eqb k key then v else get d' key default
  end.

(** How an f-string shows a value. *)
Definition show (v : pyval) : string :=
  match v with
  | PyInt n => str_of_int n
  | PyStr s => s
  end.

(** [text[:n]] *)
Definition take (n : nat) (text : string) : string :=
  str (firstn n (chars text)).

(** [text.replace(old, new)] for a one-character [old]. *)
Fixpoint replace_list (old : ascii) (new : list ascii) (l : list ascii)
  : list ascii :=
  match l with
  | [] => []
  | c :: l' =>
      if Re.is_char old c
      then (new ++ replace_list old new l')%list
      else c :: replace_list old new l'
  end.

Definition replace (old : ascii) (new : string) (text : string) : string :=
  str (replace_list old (chars new) (chars text)).

(** [doc.page_content[:200].replace('*', '\\*').replace('_', '\\_')] *)
Definition content_preview (doc : Document) : string :=
  replace underscore (String backslash "_")
    (replace star (String backslash "*") (take 200 (page_content doc))).

(** The line one source adds to [sources_text]. *)
Definition source_line (doc : Document) : string :=
  let comp_id := get (metadata doc) "complaint_id" (PyStr "N/A") in
  let product := get (metadata doc) "product" (PyStr "N/A") in
  "- **Complaint ID:** " ++ show comp_id ++ ", **Product:** " ++ show product
  ++ nl ++ "  Content: " ++ quote ++ content_preview doc ++ "..." ++ quote
  ++ nl.

Definition sources_text (retrieved_docs : list Document) : string :=
  match retrieved_docs with
  | _ :: _ =>
      fold_left (fun text doc => text ++ source_line doc)
        (firstn 3 retrieved_docs)
        ("" ++ nl ++ nl ++ "**Sources:**" ++ nl)
  | [] =>
      "" ++ nl ++ nl
      ++ "**Sources:** No relevant sources found in the knowledge base."
  end.

(** [db and embeddings and llm_pipeline], as a truth value. *)
Definition all_loaded (db : option FAISS) (embeddings : option Embeddings)
    (llm_pipeline : option Pipeline) : bool :=
  match db, embeddings, llm_pipeline with
  | Some _, Some _, Some _ => true
  | _, _, _ => false
  end.

Definition chat : Type := list message.

(** A run of the generator [respond] to its end: the values it yields, in
    order, and the value it returns, if it returns one. *)
Definition respond (user_message : string) (history : chat)
    (db : option FAISS) (embeddings : option Embeddings)
    (llm_pipeline : option Pipeline)
  : io (list chat * option chat) :=
  if negb (all_loaded db embeddings llm_pipeline) then
    ret ([], Some (history ++ [Msg "assistant" NOT_READY])%list)
  else
    let searching :=
      (history ++ [Msg "user" user_message; Msg "assistant" SEARCHING])%list in
    final <-
      try_except
        (result <- run_rag_pipeline user_message db llm_pipeline 5;;
         let (answer, retrieved_docs) := result in
         let final_message_content := answer ++ sources_text retrieved_docs in
         ret (history ++ [Msg "user" user_message;
                          Msg "assistant" final_message_content])%list)
        (fun e =>
           print ("Error during RAG response generation: " ++ Rag.message e);;
           ret (history ++ [Msg "user" user_message;
                            Msg "assistant" INTERNAL_ERROR])%list);;
    ret ([searching; final], None).

(** Every character of the text that is a mark (satisfies [mark]) has a
    backslash just before it; [escaped] tells whether the character before
    the text is one. *)
Fixpoint marks_escaped (mark : ascii -> bool) (escaped : bool)
    (l : list ascii) : bool :=
  match l with
  | [] => true
  | c :: l' =>
      (if mark c then escaped else true)
      && marks_escaped mark (Re.is_char backslash c) l'
  end.

(** [*] or [_], the characters Markdown reads as emphasis. *)
Definition emphasis (c : ascii) : bool :=
  Re.is_char star c || Re.is_char underscore c.

End App.

(* ===================================================================== *)
(** ** The rows the indexer reads *)
(* ===================================================================== *)
Module Frames.
Import Py EmbedIndex.

(** The narrative the row loop reads off a row. *)
Definition narrative_of (row : csv_row) : string :=
  strip (str_of_cell (Cleaned_Narrative row)).

(** The row passes the loop's test [narrative != '']. *)
Definition is_indexed (row : csv_row) : bool :=
  negb (String.eqb (narrative_of row) "").

(** The document the loop builds for a row. *)
Definition document_of (row : csv_row) : Document :=
  Doc (narrative_of row)
    [ ("complaint_id", PyInt (Complaint_ID row));
      ("product", PyStr (Product row));
      ("original_text_length", PyInt (Z.of_nat (len (narrative_of row)))) ].

End Frames.

(* ===================================================================== *)
(** ** The vector index behind the store *)
(* ===================================================================== *)
Module Index.
Import Rag.

(** Modelled from the spec: the vector index and its nearest-neighbour
    lookup, which are FAISS and LangChain code outside the repository.
    Sections 3 and 4.3: the index is a collection of chunks, built once, in
    insertion order; a lookup returns at most [k] chunks, nearest first, ties
    in insertion order.  The library's distances are floating-point numbers;
    the index gives them here as integers, which keeps their order. *)
Record VectorIndex : Type := Indexed {
  entries : list Document;
  distance : string -> Document -> Z
}.

(** Modelled from the spec: the order of a lookup's results.  Insertion
    into a list sorted by [d], before the first entry that is not nearer,
    so that ties stay in insertion order. *)
Fixpoint insert_by (d : Document -> Z) (x : Document) (l : list Document)
  : list Document :=
  match l with
  | [] => [x]
  | y :: l' => if (d x <=? d y)%Z then x :: y :: l' else y :: insert_by d x l'
  end.

(** Modelled from the spec: the entries of the index, nearest to the
    question first. *)
Definition nearest_first (ix : VectorIndex) (question : string)
  : list Document :=
  fold_right (insert_by (distance ix question)) [] (entries ix).

(** Modelled from the spec: the nearest-neighbour lookup, the first [k] of
    the entries, nearest first. *)
Definition search (ix : VectorIndex) (question : string) (k : Z)
  : list Document :=
  firstn (Z.to_nat k) (nearest_first ix question).

(** Modelled from the spec: the store LangChain builds over an index; its
    size is the number of entries and its search is the lookup, which does
    not raise. *)
Definition store_of (ix : VectorIndex) : FAISS :=
  Store (List.length (entries ix))
    (fun question k => Returned (search ix question k)).

(** [a] is at least as near to the question as [b]. *)
Definition nearer (ix : VectorIndex) (question : string) (a b : Document)
  : Prop :=
  (distance ix question a <= distance ix question b)%Z.

End Index.

(* ===================================================================== *)
(** ** Lines of text, one after the other *)
(* ===================================================================== *)
Module Lines.


End Lines.

Module MoreSamples.
Import Py Rag Loader App Samples.

Definition doc2 : Document :=
  Doc "late fee charged after *autopay* failed"
      [("complaint_id", PyInt 8); ("product", PyStr "Credit card")].

(** The splitter that leaves every document whole. *)
Definition whole_documents (config : EmbedIndex.splitter_config)
    (docs : list Document) : list Document := docs.

(** A model whose first generation has no [generated_text]. *)
Definition odd_model : Pipeline :=
  fun _ g => (Returned [[("summary_text", "billing errors")]], g).

(** An index of two chunks, the shorter one the nearer. *)
Definition sample_index : Index.VectorIndex :=
  Index.Indexed [doc2; Samples.doc1]
    (fun _ d => Z.of_nat (String.length (page_content d))).

End MoreSamples.

(* ===================================================================== *)
(** ** [re.sub] visits every position *)
(* ===================================================================== *)
Section RegexFacts.
Import Py Re.

(** The scan of [re.sub] never runs short: any bound that covers the length
    of the text gives the same result as the length itself, which is the
    bound [sub_fn] uses. *)
Lemma sub_from_enough_fuel r repl :
  forall fuel fuel' s prev,
    List.length s <= fuel -> List.length s <= fuel' ->
    sub_from fuel r repl s prev = sub_from fuel' r repl s prev.
Proof.
  induction fuel as [| fuel IH]; intros fuel' s prev Hf Hf'.
  - destruct s; [| cbn in Hf; lia]. destruct fuel'; reflexivity.
  - destruct fuel' as [| fuel'].
    + destruct s; [reflexivity | cbn in Hf'; lia].
    + destruct s as [| c s']; [reflexivity |].
      cbn [sub_from]. cbn [List.length] in Hf, Hf'.
      destruct (match_at r (c :: s') prev) as [rest |].
      * destruct (List.length (c :: s') - List.length rest) eqn:Hn.
        -- f_equal. apply IH; lia.
        -- f_equal. cbn [List.length] in Hn. apply IH; lia.
      * f_equal. apply IH; lia.
Qed.

(** The greedy star backtracks to the last place the rest of the pattern
    fits, and the scan resumes after the match. *)
Example sub_greedy_backtracks :
  sub (Seq (lit "a") (Seq (Star (Cls dot)) (lit "b"))) "-" "xaqqbqqbzz aab"
  = "x-".
Proof. vm_compute. reflexivity. Qed.

Example sub_collapses_whitespace :
  sub (Plus (Cls isspace)) " " ("a  " ++ nl ++ " b c ") = "a b c ".
Proof. vm_compute. reflexivity. Qed.

Example sub_word_boundaries :
  sub (Eda.cat [WordB; lit "regards"; WordB]) "" "regards, disregards regards"
  = ", disregards ".
Proof. vm_compute. reflexivity. Qed.

Example eda_clean_text_letter :
  Eda.clean_text
    "Dear Sir or Madam, this is XXXX my complaint about account number 12-34 and phone number 555-1234. Sincerely, bob"
  = ", about account number 1234 and . , bob".
Proof. vm_compute. reflexivity. Qed.

End RegexFacts.

(* ===================================================================== *)
(** ** Properties of [rag_pipeline.py] *)
(* ===================================================================== *)
Section RagFacts.
Import Py Rag Runs.
Local Open Scope io_scope.

(** One run of [generate_answer] on a loaded model and a non-empty context,
    step by step. *)
Lemma generate_answer_run question c cs llm w :
  let args := call_args question (c :: cs) in
  let w2 := after_call args (snd (llm args (rng w))) w in
  generate_answer question (c :: cs) (Some llm) w =
  match fst (llm args (rng w)) with
  | Returned (first :: _) =>
      match lookup "generated_text" first with
      | Some text => (Returned text, w2)
      | None => (Returned GENERATION_ERROR, log_failure "'generated_text'" w2)
      end
  | Returned [] =>
      (Returned GENERATION_ERROR, log_failure "list index out of range" w2)
  | Raised e => (Returned GENERATION_ERROR, log_failure (message e) w2)
  end.
Proof.
  intros args w2. subst w2 args.
  unfold generate_answer, bind, try_except, print, emit, call_pipeline.
  fold (prompt_for question (c :: cs)).
  fold (call_args question (c :: cs)).
  cbn [trace rng].
  destruct (llm (call_args question (c :: cs)) (rng w)) as [r g].
  cbn [fst snd].
  destruct r as [outs | e]; [destruct outs as [| first rest] |]; cbn.
  - reflexivity.
  - unfold getitem. destruct (lookup "generated_text" first); reflexivity.
  - reflexivity.
Qed.

(** [generate_answer] never raises. *)
Lemma generate_answer_returns question chunks llm_pipeline w :
  exists answer, fst (generate_answer question chunks llm_pipeline w)
                 = Returned answer.
Proof.
  destruct llm_pipeline as [llm |]; [| eexists; reflexivity].
  destruct chunks as [| c cs]; [eexists; reflexivity |].
  rewrite generate_answer_run.
  destruct (fst (llm _ _)) as [[| first rest] | e]; cbn;
    try (eexists; reflexivity).
  destruct (lookup _ first); eexists; reflexivity.
Qed.

(** One run of [retrieve_chunks], step by step. *)
Lemma retrieve_chunks_run question db k w :
  retrieve_chunks question db k w =
  match db with
  | None => (Returned [], absent_note w)
  | Some store =>
      match similarity_search store question k with
      | Returned docs =>
          (Returned docs,
           add_line ("Retrieved "
                     ++ str_of_int (Z.of_nat (List.length docs)) ++ " chunks.")
                    (search_note question k w))
      | Raised e =>
          (Returned [],
           add_line ("Error during retrieval: " ++ message e)
                    (search_note question k w))
      end
  end.
Proof.
  destruct db as [store |]; [| reflexivity].
  unfold retrieve_chunks, bind, try_except, print, emit,
    call_similarity_search, search_note, add_line.
  cbn [trace rng].
  rewrite <- app_assoc.
  destruct (similarity_search store question k); reflexivity.
Qed.

(** No step of [retrieve_chunks] touches the random number generator. *)
Lemma retrieve_chunks_rng question db k w :
  rng (snd (retrieve_chunks question db k w)) = rng w.
Proof.
  rewrite retrieve_chunks_run.
  destruct db as [store |]; [| reflexivity].
  destruct (similarity_search store question k); reflexivity.
Qed.

(** [run_rag_pipeline] is [generate_answer] after [retrieve_chunks]. *)
Lemma run_rag_pipeline_run question db llm_pipeline k w :
  run_rag_pipeline question db llm_pipeline k w =
  let docs := match fst (retrieve_chunks question db k w) with
              | Returned docs => docs
              | Raised _ => []
              end in
  let w1 := snd (retrieve_chunks question db k w) in
  match fst (generate_answer question docs llm_pipeline w1) with
  | Returned answer =>
      (Returned (answer, docs),
       snd (generate_answer question docs llm_pipeline w1))
  | Raised e => (Raised e, snd (generate_answer question docs llm_pipeline w1))
  end.
Proof.
  unfold run_rag_pipeline, bind at 1.
  rewrite retrieve_chunks_run.
  destruct db as [store |].
  - destruct (similarity_search store question k) as [docs | e];
      cbn [fst snd]; unfold bind, ret;
      match goal with
      | |- context [generate_answer ?q ?d ?p ?w'] =>
          destruct (generate_answer q d p w') as [[a | e'] w2]; reflexivity
      end.
  - cbn [fst snd]; unfold bind, ret.
    match goal with
    | |- context [generate_answer ?q ?d ?p ?w'] =>
        destruct (generate_answer q d p w') as [[a | e'] w2]; reflexivity
    end.
Qed.

End RagFacts.

(* ===================================================================== *)
(** ** The answer generator *)
(* ===================================================================== *)
Section AnswerGenerator.
Import Py Rag Runs Samples.

(** C1, as the specification states it, fails: with an empty context and no
    loaded model the answer is not the insufficient-information one. *)
Lemma empty_context_without_model :
  generate_answer "why was my card charged twice?" [] None w0
    = (Returned NOT_INITIALIZED, w0)
  /\ fst (generate_answer "why was my card charged twice?" [] None w0)
     <> Returned INSUFFICIENT.
Proof.
  split; [reflexivity | discriminate].
Qed.

(** C1, amended: for every question, [generate_answer] on an empty chunk
    list leaves the world as it found it (no model call, nothing printed, the
    generator's state untouched); it returns the fixed
    insufficient-information answer whenever a model is loaded, and the fixed
    "LLM generator not initialized." answer when none is. *)
Theorem empty_context_short_circuit (question : string) (w : world) :
  (forall llm : Pipeline,
      generate_answer question [] (Some llm) w = (Returned INSUFFICIENT, w))
  /\ generate_answer question [] None w = (Returned NOT_INITIALIZED, w).
Proof.
  split; [intros llm |]; reflexivity.
Qed.

(** C10: the check for a missing model comes first.  For every question and
    every chunk list, empty or not, an absent pipeline gives the fixed
    "LLM generator not initialized." answer, which is not the
    insufficient-information answer, and changes nothing; the
    insufficient-information answer of the empty context needs a pipeline. *)
Theorem uninitialized_check_comes_first
    (question : string) (context_chunks : list Document) (w : world) :
  generate_answer question context_chunks None w = (Returned NOT_INITIALIZED, w)
  /\ fst (generate_answer question context_chunks None w)
     <> Returned INSUFFICIENT
  /\ (forall llm : Pipeline,
         fst (generate_answer question [] (Some llm) w) = Returned INSUFFICIENT).
Proof.
  repeat split; try reflexivity. discriminate.
Qed.

(** C7: two runs of [generate_answer] on the same question, chunks and model,
    started in any two worlds (any two generator states), return the same
    answer, given that the model decodes greedily when not sampling.  A run
    on a loaded model and a non-empty context invokes the model, once, with
    the prompt built from the question and the chunks, [max_new_tokens=200],
    [do_sample=False] and [truncation=True]; no other run invokes it. *)
Theorem generate_answer_reproducible
    (question : string) (context_chunks : list Document)
    (llm_pipeline : option Pipeline) (w w' : world)
    (Hgreedy : decoding_fixed llm_pipeline) :
  fst (generate_answer question context_chunks llm_pipeline w)
  = fst (generate_answer question context_chunks llm_pipeline w')
  /\ exists evs,
       trace (snd (generate_answer question context_chunks llm_pipeline w))
       = (trace w ++ evs)%list
       /\ Forall bounded_greedy_call evs
       /\ Calls.external_calls evs
          = match llm_pipeline, context_chunks with
            | Some _, _ :: _ =>
                [Generated
                   (LlmArgs (prompt_for question context_chunks) 200 false
                      true)]
            | _, _ => []
            end.
Proof.
  destruct llm_pipeline as [llm |].
  2: { split; [reflexivity |]. exists []. cbn. rewrite app_nil_r. auto. }
  destruct context_chunks as [| c cs].
  { split; [reflexivity |]. exists []. cbn. rewrite app_nil_r. auto. }
  cbn in Hgreedy.
  rewrite !generate_answer_run.
  set (args := call_args question (c :: cs)).
  assert (Hsame : fst (llm args (rng w)) = fst (llm args (rng w')))
    by (apply Hgreedy; reflexivity).
  split.
  - rewrite <- Hsame.
    destruct (fst (llm args (rng w))) as [[| first rest] | e]; cbn;
      try reflexivity.
    destruct (lookup "generated_text" first); reflexivity.
  - assert (Hcall : bounded_greedy_call (Generated args))
      by (cbn; split; reflexivity).
    destruct (fst (llm args (rng w))) as [[| first rest] | e];
      [| destruct (lookup "generated_text" first) |];
      cbn [snd log_failure after_call announce trace];
      rewrite <- ?app_assoc;
      eexists; (split; [reflexivity |]);
      (split; [repeat (constructor; try exact I; try exact Hcall)
              | reflexivity]).
Qed.

(** The toy model decodes greedily; two runs from generator states 3 and 41
    agree, and a run calls the model once, without sampling. *)
Lemma generate_answer_reproducible_witness :
  decoding_fixed (Some toy_model)
  /\ fst (generate_answer "what went wrong?" [doc1] (Some toy_model)
            (World [] 3))
     = fst (generate_answer "what went wrong?" [doc1] (Some toy_model)
              (World [] 41))
  /\ exists evs,
       trace (snd (generate_answer "what went wrong?" [doc1]
                     (Some toy_model) (World [] 3)))
       = ([] ++ evs)%list
       /\ Forall bounded_greedy_call evs
       /\ Calls.external_calls evs
          = [Generated
               (LlmArgs (prompt_for "what went wrong?" [doc1]) 200 false
                  true)].
Proof.
  assert (H : decoding_fixed (Some toy_model)).
  { intros args g g' Hs. unfold toy_model. rewrite Hs. reflexivity. }
  split; [exact H |].
  exact (generate_answer_reproducible "what went wrong?" [doc1]
           (Some toy_model) (World [] 3) (World [] 41) H).
Defined.

(** C8: for every question and non-empty chunk list, if the call of the
    generation model raises, [generate_answer] returns (it does not raise)
    the fixed message "An error occurred during answer generation.",
    whatever the exception says; the exception's text goes to standard
    output only. *)
Theorem generation_failure_is_contained
    (question : string) (context_chunks : list Document)
    (llm : Pipeline) (w : world) (e : exn)
    (Hchunks : context_chunks <> [])
    (Hraise : fst (llm (call_args question context_chunks) (rng w)) = Raised e) :
  fst (generate_answer question context_chunks (Some llm) w)
  = Returned GENERATION_ERROR
  /\ exists evs,
       trace (snd (generate_answer question context_chunks (Some llm) w))
       = (trace w ++ evs
            ++ [Printed ("Error during LLM generation: " ++ message e)])%list.
Proof.
  destruct context_chunks as [| c cs]; [contradiction |].
  rewrite generate_answer_run, Hraise.
  split; [reflexivity |].
  exists [Printed (nl ++ "Generating answer with LLM...");
          Generated (call_args question (c :: cs))].
  cbn [snd log_failure after_call announce trace].
  rewrite <- !app_assoc. reflexivity.
Qed.

(** A model that raises on every call. *)
Lemma generation_failure_is_contained_witness :
  fst (generate_answer "what went wrong?" [doc1] (Some failing_model) w0)
  = Returned GENERATION_ERROR.
Proof.
  refine (proj1 (generation_failure_is_contained "what went wrong?" [doc1]
                   failing_model w0 (Exception "CUDA out of memory") _ _)).
  - discriminate.
  - reflexivity.
Defined.

End AnswerGenerator.

(* ===================================================================== *)
(** ** The index: nearest first *)
(* ===================================================================== *)
Section IndexFacts.
Import Rag Index.

Lemma insert_by_length d x l :
  List.length (insert_by d x l) = S (List.length l).
Proof.
  induction l as [| y l IH]; [reflexivity |].
  cbn [insert_by]. destruct (d x <=? d y)%Z; cbn [List.length]; congruence.
Qed.

Lemma insert_by_perm d x l : Permutation (insert_by d x l) (x :: l).
Proof.
  induction l as [| y l IH]; [reflexivity |].
  cbn [insert_by]. destruct (d x <=? d y)%Z; [reflexivity |].
  rewrite IH. apply perm_swap.
Qed.

Lemma insert_by_sorted d x l :
  StronglySorted (fun a b => (d a <= d b)%Z) l ->
  StronglySorted (fun a b => (d a <= d b)%Z) (insert_by d x l).
Proof.
  induction l as [| y l IH]; intros Hs.
  - repeat constructor.
  - cbn [insert_by]. apply StronglySorted_inv in Hs. destruct Hs as [Hl Hy].
    destruct (Z.leb_spec (d x) (d y)).
    + constructor; [constructor; assumption |].
      constructor; [assumption |].
      eapply Forall_impl; [| exact Hy]. intros a Ha. cbn in *. lia.
    + constructor; [auto |].
      eapply Permutation_Forall.
      * symmetry. apply insert_by_perm.
      * constructor; [lia | assumption].
Qed.

Lemma nearest_first_length ix q :
  List.length (nearest_first ix q) = List.length (entries ix).
Proof.
  unfold nearest_first. induction (entries ix) as [| x l IH]; [reflexivity |].
  cbn [fold_right]. rewrite insert_by_length. cbn. congruence.
Qed.

Lemma nearest_first_perm ix q : Permutation (nearest_first ix q) (entries ix).
Proof.
  unfold nearest_first. induction (entries ix) as [| x l IH]; [reflexivity |].
  cbn [fold_right]. rewrite insert_by_perm. now constructor.
Qed.

Lemma nearest_first_sorted ix q :
  StronglySorted (nearer ix q) (nearest_first ix q).
Proof.
  unfold nearest_first, nearer. induction (entries ix) as [| x l IH].
  - constructor.
  - cbn [fold_right]. now apply insert_by_sorted.
Qed.

(** A sorted list, cut in two: the first part is sorted and nothing in it
    is farther than anything in the second. *)
Lemma sorted_cut (R : Document -> Document -> Prop) n l :
  StronglySorted R l ->
  StronglySorted R (firstn n l)
  /\ forall a b, In a (firstn n l) -> In b (skipn n l) -> R a b.
Proof.
  revert l. induction n as [| n IH]; intros l Hs.
  - split; [constructor | intros a b []].
  - destruct l as [| x l]; [split; [constructor | intros a b []] |].
    apply StronglySorted_inv in Hs. destruct Hs as [Hl Hx].
    destruct (IH l Hl) as [Hf Hc]. cbn [firstn skipn]. split.
    + constructor; [exact Hf |].
      rewrite <- (firstn_skipn n l) in Hx. apply Forall_app in Hx. tauto.
    + intros a b [<- | Ha] Hb; [| now apply Hc].
      rewrite <- (firstn_skipn n l) in Hx. apply Forall_app in Hx.
      destruct Hx as [_ Hx]. rewrite Forall_forall in Hx. now apply Hx.
Qed.

End IndexFacts.

(* ===================================================================== *)
(** ** The retriever and the pipeline *)
(* ===================================================================== *)
Section Retriever.
Import Py Rag Runs Index Samples.

(** The two counts the specification asks for cannot both hold on a store
    that has some items, but fewer than [k]. *)
Lemma count_and_empty_conflict (db : FAISS) (k : Z) (docs : list Document) :
  0 < ntotal db -> (Z.of_nat (ntotal db) < k)%Z ->
  List.length docs = Nat.min (Z.to_nat k) (ntotal db) -> docs <> [].
Proof.
  intros Hpos Hlt Hlen ->. cbn in Hlen. lia.
Qed.

(** C4, as the specification states it, fails: a store that holds one item,
    asked for two, gives that item back, and [retrieve_chunks] returns it;
    the result is not the empty sequence. *)
Lemma fewer_than_k_returns_what_there_is :
  (Z.of_nat (ntotal one_doc_store) < 2)%Z
  /\ fst (retrieve_chunks "late fees" (Some one_doc_store) 2 w0)
     = Returned [doc1]
  /\ fst (retrieve_chunks "late fees" (Some one_doc_store) 2 w0)
     <> Returned [].
Proof.
  split; [reflexivity | split; [reflexivity | discriminate]].
Qed.

(** The one-item store of the counterexample is the store over an index of
    one entry. *)
Lemma one_doc_store_is_an_index d question k :
  similarity_search one_doc_store question k
  = similarity_search (store_of (Indexed [doc1] d)) question k
  /\ ntotal one_doc_store = ntotal (store_of (Indexed [doc1] d)).
Proof.
  split; [| reflexivity].
  cbn [one_doc_store store_of similarity_search]. unfold search, nearest_first.
  cbn [entries fold_right insert_by].
  destruct k as [| p | p]; try reflexivity.
  cbn [Z.ltb Z.compare Z.to_nat].
  destruct (Pos2Nat.is_succ p) as [n ->]. destruct n; reflexivity.
Qed.

(** C4, amended: for every question and positive [k], [retrieve_chunks] on a
    store over an index never raises and returns at most [k] results,
    exactly [min k size] of them, ordered nearest first: they are the
    nearest entries of the index.  The result is empty exactly when the
    index holds no item; an index with some items but fewer than [k] yields
    all of them.  Whatever the store, [retrieve_chunks] returns the empty
    list, and does not raise, when the store is absent or its search
    raises. *)
Theorem retrieve_chunks_nearest_first
    (question : string) (ix : VectorIndex) (k : Z) (w : world)
    (Hk : (0 < k)%Z) :
  exists docs rest,
    fst (retrieve_chunks question (Some (store_of ix)) k w) = Returned docs
    /\ List.length docs = Nat.min (Z.to_nat k) (List.length (entries ix))
    /\ (Z.of_nat (List.length docs) <= k)%Z
    /\ StronglySorted (nearer ix question) docs
    /\ Permutation (docs ++ rest) (entries ix)
    /\ (forall a b, In a docs -> In b rest -> nearer ix question a b)
    /\ (docs = [] <-> entries ix = [])
    /\ (forall db, retrieval_fails db question k ->
                   fst (retrieve_chunks question db k w) = Returned []).
Proof.
  exists (firstn (Z.to_nat k) (nearest_first ix question)),
         (skipn (Z.to_nat k) (nearest_first ix question)).
  destruct (sorted_cut (nearer ix question) (Z.to_nat k)
              (nearest_first ix question) (nearest_first_sorted ix question))
    as [Hsorted Hcut].
  assert (Hlen : List.length (firstn (Z.to_nat k) (nearest_first ix question))
                 = Nat.min (Z.to_nat k) (List.length (entries ix))).
  { rewrite length_firstn, nearest_first_length. reflexivity. }
  split; [rewrite retrieve_chunks_run; reflexivity |].
  split; [exact Hlen |].
  split; [rewrite Hlen; lia |].
  split; [exact Hsorted |].
  split; [rewrite firstn_skipn; apply nearest_first_perm |].
  split; [exact Hcut |].
  split.
  - split; intros H.
    + rewrite H in Hlen. cbn [List.length] in Hlen.
      destruct (entries ix); [reflexivity | cbn [List.length] in Hlen; lia].
    + rewrite H in Hlen. cbn [List.length] in Hlen.
      rewrite Nat.min_0_r in Hlen.
      destruct (firstn _ _); [reflexivity | discriminate].
  - intros db Hfail. rewrite retrieve_chunks_run.
    destruct db as [store |]; [| reflexivity].
    destruct Hfail as [e ->]. reflexivity.
Qed.

(** Two entries, one asked for: the nearer one comes back. *)
Lemma retrieve_chunks_nearest_first_witness :
  exists docs,
    fst (retrieve_chunks "late fees" (Some (store_of MoreSamples.sample_index)) 1 w0)
    = Returned docs
    /\ List.length docs = 1
    /\ StronglySorted (nearer MoreSamples.sample_index "late fees") docs.
Proof.
  destruct (retrieve_chunks_nearest_first "late fees" MoreSamples.sample_index 1 w0)
    as (docs & rest & Hrun & Hlen & _ & Hsorted & _).
  - reflexivity.
  - exists docs. split; [exact Hrun |]. split; [exact Hlen | exact Hsorted].
Defined.

Lemma failed_retrieval_is_empty question db k w :
  retrieval_fails db question k ->
  fst (retrieve_chunks question db k w) = Returned [].
Proof.
  intros Hfail. rewrite retrieve_chunks_run.
  destruct db as [store |]; [| reflexivity].
  destruct Hfail as [e ->]. reflexivity.
Qed.

(** C9, as stated, fails: with no store and no model the pipeline's answer
    is "LLM generator not initialized.", not the insufficient-information
    answer. *)
Lemma failed_retrieval_without_model :
  fst (run_rag_pipeline "late fees" None None 5 w0)
    = Returned (NOT_INITIALIZED, [])
  /\ fst (run_rag_pipeline "late fees" None None 5 w0)
     <> Returned (INSUFFICIENT, []).
Proof.
  split; [reflexivity | discriminate].
Qed.

(** C9, amended: when the store is absent or its search raises,
    [retrieve_chunks] returns the empty list and [run_rag_pipeline] does not
    raise: it returns the empty source list, paired with the fixed
    insufficient-information answer whenever a model is loaded (with the
    fixed "LLM generator not initialized." answer when none is), and the
    generator's state is left alone.  Its result is the one a store with no
    match, [store'], gives. *)
Theorem retrieval_failure_looks_empty
    (question : string) (db : option FAISS) (k : Z) (w : world)
    (store' : FAISS)
    (Hfail : retrieval_fails db question k)
    (Hempty : similarity_search store' question k = Returned []) :
  fst (retrieve_chunks question db k w) = Returned []
  /\ (forall llm : Pipeline,
         fst (run_rag_pipeline question db (Some llm) k w)
         = Returned (INSUFFICIENT, []))
  /\ fst (run_rag_pipeline question db None k w)
     = Returned (NOT_INITIALIZED, [])
  /\ (forall llm_pipeline : option Pipeline,
         fst (run_rag_pipeline question db llm_pipeline k w)
         = fst (run_rag_pipeline question (Some store') llm_pipeline k w)
         /\ rng (snd (run_rag_pipeline question db llm_pipeline k w)) = rng w).
Proof.
  pose proof (failed_retrieval_is_empty question db k w Hfail) as Hdocs.
  assert (Hdocs' : fst (retrieve_chunks question (Some store') k w)
                   = Returned []).
  { rewrite retrieve_chunks_run, Hempty. reflexivity. }
  assert (Hrun : forall llm_pipeline,
             fst (run_rag_pipeline question db llm_pipeline k w)
             = Returned (match llm_pipeline with
                         | Some _ => INSUFFICIENT
                         | None => NOT_INITIALIZED
                         end, [])).
  { intros p. rewrite run_rag_pipeline_run, Hdocs. destruct p; reflexivity. }
  split; [exact Hdocs |].
  split; [intros llm; apply (Hrun (Some llm)) |].
  split; [apply (Hrun None) |].
  intros p. split.
  - rewrite Hrun, run_rag_pipeline_run, Hdocs'. destruct p; reflexivity.
  - rewrite run_rag_pipeline_run, Hdocs.
    destruct p; cbn; apply retrieve_chunks_rng.
Qed.

(** A store whose search raises, with the toy model loaded. *)
Lemma retrieval_failure_looks_empty_witness :
  fst (run_rag_pipeline "late fees" (Some broken_store) (Some toy_model) 5 w0)
  = Returned (INSUFFICIENT, []).
Proof.
  refine (proj1 (proj2 (retrieval_failure_looks_empty "late fees"
                          (Some broken_store) 5 w0 empty_store _ _))
            toy_model).
  - exists (Exception "index file is corrupt"). reflexivity.
  - reflexivity.
Defined.

End Retriever.

(* ===================================================================== *)
(** ** The category mapping *)
(* ===================================================================== *)
Section CategoryMapping.
Import Py Samples.

(** The loop of [filter_products] is the first match over the table. *)
Lemma filter_products_in_first_match table s :
  Eda.filter_products_in table s = Spec.first_match table s.
Proof.
  unfold Spec.first_match.
  induction table as [| [standardized variants] rest IH]; [reflexivity |].
  cbn [Eda.filter_products_in find].
  unfold Spec.triggers_match at 1. cbn [snd].
  destruct (existsb _ variants); [reflexivity | exact IH].
Qed.

(** A first match is one of the table's categories. *)
Lemma first_match_in_table table s name :
  Spec.first_match table s = Some name -> In name (map fst table).
Proof.
  unfold Spec.first_match. intros H.
  destruct (find (Spec.triggers_match s) table) as [entry |] eqn:Hfind;
    [| discriminate].
  injection H as <-.
  apply in_map. apply (find_some _ _ Hfind).
Qed.

(** [map_to_target_product] is the first match over its own table, followed
    by the narrative test of the loan branch. *)
Lemma map_to_target_product_first_match product narrative :
  Preprocessing.map_to_target_product product narrative
  = Spec.reclassify narrative (Spec.category_of Spec.branch_table product).
Proof.
  unfold Preprocessing.map_to_target_product, Spec.category_of,
    Spec.first_match, Spec.branch_table, Spec.triggers_match,
    Preprocessing.any_in, Preprocessing.loan_terms.
  set (p := lower product).
  cbn [find existsb snd fst].
  rewrite !orb_false_r.
  destruct (contains "credit card" p || contains "prepaid card" p);
    [reflexivity |].
  match goal with
  | |- (if ?b then _ else _) = _ => destruct b; [reflexivity |]
  end.
  rewrite <- orb_assoc.
  match goal with
  | |- (if ?b then _ else _) = _ => destruct b; [reflexivity |]
  end.
  rewrite <- orb_assoc.
  match goal with
  | |- (if ?b then _ else _) = _ => destruct b; reflexivity
  end.
Qed.

(** C2, as the specification states it, fails for [map_to_target_product]:
    the same raw category maps to two categories under two narratives. *)
Lemma mapping_depends_on_narrative :
  Preprocessing.map_to_target_product "Personal loan"
    "They signed me up for a BNPL plan"
  = Some "Buy Now, Pay Later"
  /\ Preprocessing.map_to_target_product "Personal loan"
       "The funds were never disbursed"
     = Some "Personal loan"
  /\ Preprocessing.map_to_target_product "Personal loan"
       "They signed me up for a BNPL plan"
     <> Preprocessing.map_to_target_product "Personal loan"
          "The funds were never disbursed".
Proof.
  split; [vm_compute; reflexivity |].
  split; [vm_compute; reflexivity |].
  vm_compute. discriminate.
Qed.

(** C2, amended: both mappings are total functions that lower-case the raw
    category, test it against an ordered trigger table and take the first
    match, yielding one of the five standard categories or exclusion.
    [filter_products] is a function of the raw category alone.
    [map_to_target_product] reads the narrative as well, in one place: a
    category that matches the personal-loan triggers becomes
    "Buy Now, Pay Later" when the lower-cased narrative contains
    "buy now pay later" or "bnpl"; for every other category the result is the
    same under any two narratives. *)
Theorem category_mapping_first_match (product narrative narrative' : string) :
  Eda.filter_products product
  = Spec.category_of Eda.TARGET_PRODUCTS product
  /\ Spec.standard_or_excluded (Eda.filter_products product)
  /\ Preprocessing.map_to_target_product product narrative
     = Spec.reclassify narrative (Spec.category_of Spec.branch_table product)
  /\ Spec.standard_or_excluded
       (Preprocessing.map_to_target_product product narrative)
  /\ (Preprocessing.map_to_target_product product narrative
      = Preprocessing.map_to_target_product product narrative'
      \/ Spec.category_of Spec.branch_table product = Some "Personal loan").
Proof.
  assert (Heda : Eda.filter_products product
                 = Spec.category_of Eda.TARGET_PRODUCTS product)
    by apply filter_products_in_first_match.
  split; [exact Heda |].
  split.
  { rewrite Heda. unfold Spec.standard_or_excluded, Spec.category_of.
    destruct (Spec.first_match Eda.TARGET_PRODUCTS (lower product)) as [name |]
      eqn:Hm; [| exact I].
    exact (first_match_in_table _ _ _ Hm). }
  rewrite !map_to_target_product_first_match.
  split; [reflexivity |].
  unfold Spec.category_of.
  destruct (Spec.first_match Spec.branch_table (lower product)) as [name |]
    eqn:Hm.
  2: { split; [exact I | left; reflexivity]. }
  apply first_match_in_table in Hm. cbn in Hm.
  destruct Hm as [<- | [<- | [<- | [<- | []]]]]; cbn.
  - split; [auto | left; reflexivity].
  - split; [| right; reflexivity].
    destruct (Spec.mentions_bnpl narrative); cbn; auto.
  - split; [auto 6 | left; reflexivity].
  - split; [auto 6 | left; reflexivity].
Qed.

End CategoryMapping.

(* ===================================================================== *)
(** ** The length filter *)
(* ===================================================================== *)
Section LengthFilter.
Import Py Samples.

(** C5, as the specification states it, fails for [run_preprocessing] of
    [preprocessing.py]: a record whose category is mapped and whose cleaned
    narrative has 11 words is dropped, its raw narrative being no longer than
    30 characters. *)
Lemma count_in_range_but_dropped :
  Preprocessing.map_to_target_product "Credit card" eleven_words
    = Some "Credit card"
  /\ word_count (Preprocessing.clean_text eleven_words) = 11
  /\ Preprocessing.run_preprocessing_row
       (RawRow 1 "Credit card" (Some eleven_words)) = None.
Proof.
  split; [vm_compute; reflexivity |].
  split; vm_compute; reflexivity.
Qed.

(** C5, amended: the word count is the number of whitespace-delimited tokens
    of the cleaned narrative.  [process_complaints] keeps a record that has a
    mapped category and a narrative exactly when 10 < count < 1000;
    [run_preprocessing] of [preprocessing.py] keeps it exactly when, besides,
    the raw narrative, trimmed, is longer than 30 characters.  In both, a
    narrative whose cleaned word count is 5 is dropped whatever the
    category. *)
Theorem length_filter_keeps_in_range
    (r : raw_row) (narrative : string)
    (Hnarrative : raw_narrative r = Some narrative) :
  let n_eda := List.length (split (Eda.clean_text narrative)) in
  let n_pre := List.length (split (Preprocessing.clean_text narrative)) in
  (Eda.process_complaints_row r <> None
   <-> Eda.filter_products (raw_product r) <> None
       /\ 10 < n_eda /\ n_eda < 1000)
  /\ (Preprocessing.run_preprocessing_row r <> None
      <-> Preprocessing.map_to_target_product (raw_product r) narrative <> None
          /\ 30 < len (strip narrative)
          /\ 10 < n_pre /\ n_pre < 1000)
  /\ (n_eda = 5 -> Eda.process_complaints_row r = None)
  /\ (n_pre = 5 -> Preprocessing.run_preprocessing_row r = None).
Proof.
  intros n_eda n_pre.
  assert (Heda : Eda.process_complaints_row r <> None
                 <-> Eda.filter_products (raw_product r) <> None
                     /\ 10 < n_eda /\ n_eda < 1000).
  { unfold Eda.process_complaints_row. rewrite Hnarrative.
    fold (word_count (Eda.clean_text narrative)).
    change (word_count (Eda.clean_text narrative)) with n_eda.
    clearbody n_eda. clear n_pre.
    destruct (Eda.filter_products (raw_product r)) as [product |].
    - destruct (Nat.ltb_spec 10 n_eda), (Nat.ltb_spec n_eda 1000); cbn;
        split; try (intros _; repeat split; (lia || discriminate));
        intros H'; try (exfalso; lia); try discriminate;
        try (now exfalso; apply H').
    - split; [intros H'; now exfalso | intros [H' _]; now exfalso]. }
  assert (Hpre : Preprocessing.run_preprocessing_row r <> None
                 <-> Preprocessing.map_to_target_product (raw_product r)
                       narrative <> None
                     /\ 30 < len (strip narrative)
                     /\ 10 < n_pre /\ n_pre < 1000).
  { unfold Preprocessing.run_preprocessing_row. rewrite Hnarrative.
    fold (word_count (Preprocessing.clean_text narrative)).
    change (word_count (Preprocessing.clean_text narrative)) with n_pre.
    clearbody n_pre. clear Heda. clear n_eda.
    destruct (Preprocessing.map_to_target_product (raw_product r) narrative)
      as [product |].
    - destruct (Nat.ltb_spec 30 (len (strip narrative))),
        (Nat.ltb_spec 10 n_pre), (Nat.ltb_spec n_pre 1000); cbn;
        split; try (intros _; repeat split; (lia || discriminate));
        intros H'; try (exfalso; lia); try discriminate;
        try (now exfalso; apply H').
    - split; [intros H'; now exfalso | intros [H' _]; now exfalso]. }
  clearbody n_eda n_pre.
  split; [exact Heda |]. split; [exact Hpre |].
  split; intros Hfive.
  - destruct (Eda.process_complaints_row r) eqn:Hrow; [| reflexivity].
    assert (Hkept : Some k <> None) by discriminate.
    apply Heda in Hkept. lia.
  - destruct (Preprocessing.run_preprocessing_row r) eqn:Hrow; [| reflexivity].
    assert (Hkept : Some f <> None) by discriminate.
    apply Hpre in Hkept. lia.
Qed.

(** A five-word narrative under a mapped category. *)
Lemma length_filter_keeps_in_range_witness :
  Eda.process_complaints_row (RawRow 3 "Credit card" (Some five_words)) = None
  /\ Preprocessing.run_preprocessing_row
       (RawRow 3 "Credit card" (Some five_words)) = None.
Proof.
  pose proof (length_filter_keeps_in_range
                (RawRow 3 "Credit card" (Some five_words)) five_words
                eq_refl) as H.
  cbv zeta in H.
  destruct H as (_ & _ & Heda & Hpre).
  split; [apply Heda | apply Hpre]; vm_compute; reflexivity.
Defined.

End LengthFilter.

(* ===================================================================== *)
(** ** Narrative cleaning: the first end-to-end scenario *)
(* ===================================================================== *)
Section Cleaning.
Import Py Samples.

Lemma prep_cleans_scenario1 :
  Prep.clean_text scenario1
  = "my credit card interest rate was increased without notice".
Proof. vm_compute. reflexivity. Qed.

Lemma preprocessing_cleans_scenario1 :
  Preprocessing.clean_text scenario1 = lower scenario1.
Proof. vm_compute. reflexivity. Qed.

(** C6, as the specification states it, fails: once [prep.py]'s cleaning has
    removed the boilerplate the narrative has 9 words, not 11 or more; and
    [preprocessing.py]'s cleaning leaves the boilerplate in. *)
Lemma scenario1_counts_nine_words :
  word_count (Prep.clean_text scenario1) = 9
  /\ ~ 11 <= word_count (Prep.clean_text scenario1)
  /\ contains boilerplate_phrase (Preprocessing.clean_text scenario1) = true.
Proof.
  rewrite prep_cleans_scenario1, preprocessing_cleans_scenario1.
  split; [vm_compute; reflexivity |].
  split; [vm_compute; lia | vm_compute; reflexivity].
Qed.

(** C6, amended: [prep.py]'s cleaning removes boilerplate through an ordered
    list of patterns, of which "i am writing to file a complaint" is one.
    It turns the scenario's narrative into
    "my credit card interest rate was increased without notice", which does
    not contain that phrase and has 9 words; [prep.py] keeps the record, as
    it keeps every record of a target product whose cleaned narrative is not
    empty (it has no word-count filter).  [preprocessing.py]'s cleaning only
    lower-cases this narrative: the phrase stays, and the record is kept with
    its 16 words. *)
Theorem scenario1_cleaning (id : Z) :
  In boilerplate_phrase Prep.boilerplate_patterns
  /\ Prep.clean_text scenario1
     = "my credit card interest rate was increased without notice"
  /\ contains boilerplate_phrase (Prep.clean_text scenario1) = false
  /\ word_count (Prep.clean_text scenario1) = 9
  /\ Prep.run_preprocessing_row (RawRow id "Credit card" (Some scenario1))
     = Some (Prep.SavedRow id "Credit card"
               "my credit card interest rate was increased without notice")
  /\ (forall r : raw_row,
         Prep.run_preprocessing_row r <> None
         <-> Prep.isin (raw_product r) Prep.target_products = true
             /\ exists narrative,
                  raw_narrative r = Some narrative
                  /\ 0 < len (strip (Prep.clean_text narrative)))
  /\ contains boilerplate_phrase (Preprocessing.clean_text scenario1) = true
  /\ Preprocessing.run_preprocessing_row
       (RawRow id "Credit card" (Some scenario1))
     = Some (Preprocessing.FilteredRow id "Credit card" (lower scenario1) 16).
Proof.
  split; [cbn; auto |].
  split; [exact prep_cleans_scenario1 |].
  split; [rewrite prep_cleans_scenario1; vm_compute; reflexivity |].
  split; [rewrite prep_cleans_scenario1; vm_compute; reflexivity |].
  split.
  { unfold Prep.run_preprocessing_row. cbn [raw_product raw_narrative complaint_id].
    rewrite prep_cleans_scenario1.
    replace (Prep.isin "Credit card" Prep.target_products) with true
      by (vm_compute; reflexivity).
    replace (0 <? len (strip
               "my credit card interest rate was increased without notice"))%nat
      with true by (vm_compute; reflexivity).
    reflexivity. }
  split.
  { intros r. unfold Prep.run_preprocessing_row.
    destruct (Prep.isin (raw_product r) Prep.target_products).
    - destruct (raw_narrative r) as [narrative |].
      + destruct (Nat.ltb_spec 0 (len (strip (Prep.clean_text narrative)))).
        * split; [intros _ | discriminate].
          split; [reflexivity | exists narrative; auto].
        * split; [intros H'; now exfalso |].
          intros [_ (n' & Hn' & Hlen)]. injection Hn' as <-. lia.
      + split; [intros H'; now exfalso |].
        intros [_ (n' & Hn' & _)]. discriminate.
    - split; [intros H'; now exfalso | intros [H' _]; discriminate]. }
  split; [rewrite preprocessing_cleans_scenario1; vm_compute; reflexivity |].
  unfold Preprocessing.run_preprocessing_row.
  cbn [raw_product raw_narrative complaint_id].
  rewrite preprocessing_cleans_scenario1.
  replace (Preprocessing.map_to_target_product "Credit card" scenario1)
    with (Some "Credit card") by (vm_compute; reflexivity).
  replace (word_count (lower scenario1)) with 16 by (vm_compute; reflexivity).
  replace (30 <? len (strip scenario1))%nat with true
    by (vm_compute; reflexivity).
  reflexivity.
Qed.

End Cleaning.

(* ===================================================================== *)
(** ** The row loop of the indexer *)
(* ===================================================================== *)
Section RowLoopFacts.
Import Py EmbedIndex.

Variable split_documents : splitter_config -> list Document -> list Document.

(** A narrative that is empty once trimmed adds nothing to [documents]:
    the splitter is not called for it. *)
Lemma blank_narrative_adds_no_chunk (row : csv_row) :
  strip (str_of_cell (Cleaned_Narrative row)) = "" ->
  chunks_of_row split_documents row = [].
Proof.
  intros Hblank. unfold chunks_of_row. rewrite Hblank. reflexivity.
Qed.

(** Any other narrative goes to the splitter whole, trimmed, as one
    document, and what the splitter returns is kept in its order. *)
Lemma narrative_goes_to_the_splitter (row : csv_row) :
  let narrative := strip (str_of_cell (Cleaned_Narrative row)) in
  narrative <> "" ->
  exists meta,
    chunks_of_row split_documents row
    = split_documents (SplitterConfig 1500 150 true) [Doc narrative meta].
Proof.
  intros narrative Hne. unfold chunks_of_row. fold narrative.
  destruct (String.eqb_spec narrative ""); [contradiction |].
  cbn. eexists. reflexivity.
Qed.

End RowLoopFacts.

(* ===================================================================== *)
(** ** The matcher returns what is left of the text *)
(* ===================================================================== *)

Ltac each_char c :=
  destruct c as [[] [] [] [] [] [] [] []]; vm_compute;
  try reflexivity; try discriminate.

Section RunFacts.
Import Py Re Text.

Lemma run_star a k s prev :
  run (Star a) k s prev = star_loop (run a) k (List.length s) s prev.
Proof. reflexivity. Qed.

Lemma suffix_of_refl s : suffix_of s s.
Proof. exists []. reflexivity. Qed.

Lemma suffix_of_cons c rest s : suffix_of rest s -> suffix_of rest (c :: s).
Proof. intros [pre ->]. exists (c :: pre). reflexivity. Qed.

Lemma suffix_of_trans a b c : suffix_of a b -> suffix_of b c -> suffix_of a c.
Proof.
  intros [p ->] [q ->]. exists (q ++ p)%list. now rewrite app_assoc.
Qed.

Lemma suffix_of_length rest s :
  suffix_of rest s -> List.length rest <= List.length s.
Proof. intros [pre ->]. rewrite length_app. lia. Qed.

Lemma star_loop_suffix ra k :
  (forall k', suffix_cont k' -> suffix_cont (ra k')) ->
  suffix_cont k ->
  forall n, suffix_cont (star_loop ra k n).
Proof.
  intros Hra Hk. induction n as [| n IH]; intros s p rest H; cbn [star_loop] in H.
  - eauto.
  - match type of H with
    | match ra ?k' s p with _ => _ end = _ =>
        assert (Hk' : suffix_cont k');
        [| destruct (ra k' s p) as [r |] eqn:Hr]
    end.
    + intros s' p' rest' H'. cbn beta in H'.
      destruct (List.length s' <? List.length s)%nat; [eauto | discriminate].
    + injection H as <-. eapply Hra; eauto.
    + eauto.
Qed.

Lemma run_suffix r : forall k, suffix_cont k -> suffix_cont (run r k).
Proof.
  induction r as [f | | a IHa b IHb | a IHa b IHb | a IHa |];
    intros k Hk s p rest H.
  - cbn [run] in H. destruct s as [| c s']; [discriminate |].
    destruct (f c); [| discriminate].
    apply suffix_of_cons. eauto.
  - cbn [run] in H. eauto.
  - cbn [run] in H. eapply IHa; [| exact H]. intros s' p' rest' H'.
    eapply IHb; eauto.
  - cbn [run] in H. destruct (run a k s p) as [r |] eqn:Hr.
    + injection H as <-. eapply IHa; eauto.
    + eapply IHb; eauto.
  - rewrite run_star in H. eapply star_loop_suffix; eauto.
  - cbn [run] in H. destruct (at_boundary p s); [eauto | discriminate].
Qed.

Lemma match_at_suffix r s prev rest :
  match_at r s prev = Some rest -> suffix_of rest s.
Proof.
  unfold match_at. apply run_suffix.
  intros s' p' rest' H. injection H as <-. apply suffix_of_refl.
Qed.

End RunFacts.

(* ===================================================================== *)
(** ** [re.sub]: what it keeps and what it deletes *)
(* ===================================================================== *)

Section SubFacts.
Import Py Re Text.

Lemma chars_str l : chars (str l) = l.
Proof. apply list_ascii_of_string_of_list_ascii. Qed.

Lemma str_chars s : str (chars s) = s.
Proof. apply string_of_list_ascii_of_string. Qed.

Lemma chars_lower s : chars (lower s) = map lower_char (chars s).
Proof.
  unfold chars. induction s as [| c s IH]; [reflexivity |].
  cbn [lower list_ascii_of_string map]. now rewrite IH.
Qed.

Lemma Forall_suffix (P : ascii -> Prop) rest s :
  suffix_of rest s -> Forall P s -> Forall P rest.
Proof. intros [pre ->] H. apply Forall_app in H. tauto. Qed.

(** What [re.sub] returns is made of characters of the text and of the
    replacements. *)
Lemma sub_from_Forall (P : ascii -> Prop) r repl :
  (forall m, Forall P m -> Forall P (repl m)) ->
  forall fuel s prev, Forall P s -> Forall P (sub_from fuel r repl s prev).
Proof.
  intros Hrepl. induction fuel as [| fuel IH]; intros s prev Hs; [exact Hs |].
  destruct s as [| c s']; [constructor |].
  cbn [sub_from].
  pose proof (Forall_inv Hs) as Hc. pose proof (Forall_inv_tail Hs) as Hs'.
  destruct (match_at r (c :: s') prev) as [rest |] eqn:Hm.
  - destruct (List.length (c :: s') - List.length rest) eqn:Hn.
    + constructor; auto.
    + apply Forall_app. split.
      * apply Hrepl.
        rewrite <- (firstn_skipn (S n) (c :: s')) in Hs.
        apply Forall_app in Hs. tauto.
      * apply IH. eapply Forall_suffix; [| exact Hs].
        eapply match_at_suffix; eauto.
  - constructor; auto.
Qed.

Lemma sub_fn_only_chars P r repl text :
  (forall m, only_chars P m -> only_chars P (repl m)) ->
  only_chars P text -> only_chars P (sub_fn r repl text).
Proof.
  intros Hrepl Ht. unfold only_chars, sub_fn. rewrite chars_str.
  apply sub_from_Forall; [| exact Ht].
  intros m Hm. apply Hrepl. unfold only_chars. now rewrite chars_str.
Qed.

Lemma sub_delete_only_chars P r text :
  only_chars P text -> only_chars P (sub r "" text).
Proof.
  apply sub_fn_only_chars. intros m _. constructor.
Qed.

(** Deleting the characters of a class is a filter. *)
Lemma sub_from_class f :
  forall fuel s prev, List.length s <= fuel ->
    sub_from fuel (Cls f) (fun _ => []) s prev = filter (fun c => negb (f c)) s.
Proof.
  induction fuel as [| fuel IH]; intros s prev Hlen.
  - destruct s; [reflexivity | cbn in Hlen; lia].
  - destruct s as [| c s']; [reflexivity |].
    cbn [sub_from match_at run filter]. cbn [List.length] in Hlen.
    destruct (f c); cbn [negb].
    + replace (List.length (c :: s') - List.length s') with 1
        by (cbn [List.length]; lia).
      cbn [firstn app]. apply IH. lia.
    + f_equal. apply IH. lia.
Qed.

Lemma chars_sub_class f text :
  chars (sub (Cls f) "" text) = filter (fun c => negb (f c)) (chars text).
Proof.
  unfold sub, sub_fn. rewrite chars_str. apply sub_from_class. lia.
Qed.

Lemma sub_class_only_chars f text :
  only_chars (fun c => negb (f c)) (sub (Cls f) "" text).
Proof.
  unfold only_chars. rewrite chars_sub_class.
  apply Forall_forall. intros c Hc. apply filter_In in Hc. tauto.
Qed.

Lemma only_chars_and P Q s :
  only_chars P s -> only_chars Q s -> only_chars (fun c => P c && Q c) s.
Proof.
  unfold only_chars. rewrite !Forall_forall. intros HP HQ c Hc.
  now rewrite HP, HQ.
Qed.

Lemma only_chars_weaken (P Q : ascii -> bool) s :
  (forall c, P c = true -> Q c = true) -> only_chars P s -> only_chars Q s.
Proof.
  unfold only_chars. intros HPQ H. eapply Forall_impl; [| exact H]. auto.
Qed.

End SubFacts.

(* ===================================================================== *)
(** ** Whitespace: [\s+] and [strip] *)
(* ===================================================================== *)

Section WhitespaceFacts.
Import Py Re Text.

Lemma star_spaces_loop :
  forall n s prev, List.length s <= n ->
    star_loop (run (Cls isspace)) (fun rest _ => Some rest) n s prev
    = Some (lstrip s).
Proof.
  induction n as [| n IH]; intros s prev Hlen.
  - destruct s; [reflexivity | cbn in Hlen; lia].
  - cbn [star_loop run]. destruct s as [| c s']; [reflexivity |].
    cbn [lstrip]. destruct (isspace c); [| reflexivity].
    cbn [List.length] in *.
    replace (List.length s' <? S (List.length s'))%nat with true
      by (symmetry; apply Nat.ltb_lt; lia).
    rewrite IH by lia. reflexivity.
Qed.

Lemma run_seq a b k s prev :
  run (Seq a b) k s prev = run a (fun s' p' => run b k s' p') s prev.
Proof. reflexivity. Qed.

Lemma run_cls f k s prev :
  run (Cls f) k s prev =
  match s with
  | c :: s' => if f c then k s' (Some c) else None
  | [] => None
  end.
Proof. reflexivity. Qed.

(** [\s+] at the head of the text takes the whole run of whitespace. *)
Lemma match_spaces s prev :
  match_at ws_plus s prev =
  match s with
  | c :: s' => if isspace c then Some (lstrip s') else None
  | [] => None
  end.
Proof.
  unfold ws_plus, Plus, match_at. rewrite run_seq, run_cls.
  destruct s as [| c s']; [reflexivity |].
  destruct (isspace c); [| reflexivity].
  rewrite run_star. apply star_spaces_loop. lia.
Qed.

Lemma lstrip_suffix l : suffix_of (lstrip l) l.
Proof.
  induction l as [| c l IH]; cbn [lstrip]; [apply suffix_of_refl |].
  destruct (isspace c); [now apply suffix_of_cons | apply suffix_of_refl].
Qed.

Lemma lstrip_head l :
  match lstrip l with c :: _ => isspace c = false | [] => True end.
Proof.
  induction l as [| c l IH]; cbn [lstrip]; [exact I |].
  destruct (isspace c) eqn:Hc; [exact IH | exact Hc].
Qed.

Lemma lstrip_fixed c l : isspace c = false -> lstrip (c :: l) = c :: l.
Proof. intros H. cbn. now rewrite H. Qed.

Lemma lstrip_idem l : lstrip (lstrip l) = lstrip l.
Proof.
  pose proof (lstrip_head l) as H.
  destruct (lstrip l) as [| c l']; [reflexivity | now apply lstrip_fixed].
Qed.

Lemma lstrip_snoc l c :
  isspace c = false -> lstrip (l ++ [c]) = (lstrip l ++ [c])%list.
Proof.
  intros Hc. induction l as [| d l IH]; cbn [app lstrip].
  - now rewrite Hc.
  - destruct (isspace d); [exact IH | reflexivity].
Qed.

Lemma spaced_once_single l : spaced_once l = true -> single_spaced_list l.
Proof.
  intros H pre c d post ->. induction pre as [| x pre IH].
  - cbn in H. apply andb_true_iff in H. destruct H as [H _].
    now apply negb_true_iff in H.
  - apply IH. cbn [app spaced_once] in H.
    apply andb_true_iff in H. tauto.
Qed.

(** Collapsing runs of whitespace: what comes out has single spaces for
    whitespace, never two in a row, and starts with a space only where the
    text started with whitespace. *)
Lemma collapse_spaces :
  forall fuel s prev, List.length s <= fuel ->
    let out := sub_from fuel ws_plus (fun _ => [space]) s prev in
    Forall space_or_not out
    /\ spaced_once out = true
    /\ match out, s with
       | c :: _, d :: _ => isspace c = true -> isspace d = true
       | _ :: _, [] => False
       | [], _ => True
       end.
Proof.
  induction fuel as [| fuel IH]; intros s prev Hlen.
  - destruct s; [cbn; auto | cbn in Hlen; lia].
  - destruct s as [| c s']; [cbn; auto |].
    cbn [sub_from]. rewrite match_spaces. cbn [List.length] in Hlen.
    destruct (isspace c) eqn:Hc.
    + pose proof (suffix_of_length _ _ (lstrip_suffix s')) as Hl.
      replace (List.length (c :: s') - List.length (lstrip s'))
        with (S (List.length s' - List.length (lstrip s')))
        by (cbn [List.length]; lia).
      cbn zeta. cbn [app].
      match goal with
      | |- context [sub_from fuel ws_plus ?f (lstrip s') ?p] =>
          destruct (IH (lstrip s') p ltac:(lia)) as (Ha & Hb & Hh);
          set (out := sub_from fuel ws_plus f (lstrip s') p) in *
      end.
      split; [constructor; [right; reflexivity | exact Ha] |].
      split; [| auto].
      cbn [spaced_once]. rewrite Hb, andb_true_r.
      destruct out as [| d out']; [reflexivity |].
      pose proof (lstrip_head s') as Hhead.
      destruct (lstrip s') as [| e rest]; [contradiction |].
      destruct (isspace d) eqn:Hd; [| now rewrite andb_false_r].
      rewrite (Hh eq_refl) in Hhead. discriminate.
    + match goal with
      | |- context [sub_from fuel ws_plus ?f s' ?p] =>
          destruct (IH s' p ltac:(lia)) as (Ha & Hb & Hh);
          set (out := sub_from fuel ws_plus f s' p) in *
      end.
      cbn zeta.
      split; [constructor; [left; exact Hc | exact Ha] |].
      split; [| intros H'; congruence].
      cbn [spaced_once]. rewrite Hb, andb_true_r, Hc.
      destruct out; reflexivity.
Qed.

Lemma chars_collapse text :
  let out := chars (sub ws_plus " " text) in
  Forall space_or_not out /\ single_spaced_list out.
Proof.
  unfold sub, sub_fn. rewrite chars_str.
  change (fun _ : list ascii => chars " ") with (fun _ : list ascii => [space]).
  destruct (collapse_spaces (List.length (chars text)) (chars text) None
              (le_n _)) as (Ha & Hb & _).
  split; [exact Ha | now apply spaced_once_single].
Qed.

End WhitespaceFacts.

Section StripFacts.
Import Py Re Text.

Lemma rstrip_prefix l : exists b, l = (rev (lstrip (rev l)) ++ b)%list.
Proof.
  destruct (lstrip_suffix (rev l)) as [a Ha].
  exists (rev a). rewrite <- rev_app_distr, <- Ha. now rewrite rev_involutive.
Qed.

Lemma chars_strip_infix s : infix_of (chars (strip s)) (chars s).
Proof.
  unfold strip. rewrite chars_str.
  destruct (lstrip_suffix (chars s)) as [a Ha].
  destruct (rstrip_prefix (lstrip (chars s))) as [b Hb].
  exists a, b. rewrite <- Hb. exact Ha.
Qed.

Lemma Forall_infix (P : ascii -> Prop) l big :
  infix_of l big -> Forall P big -> Forall P l.
Proof.
  intros (a & b & ->) H. apply Forall_app in H. destruct H as [_ H].
  apply Forall_app in H. tauto.
Qed.

Lemma single_spaced_infix l big :
  infix_of l big -> single_spaced_list big -> single_spaced_list l.
Proof.
  intros (a & b & ->) H pre c d post ->.
  apply (H (a ++ pre)%list c d (post ++ b)%list).
  rewrite <- !app_assoc. reflexivity.
Qed.

Lemma rstrip_lstrip_head l :
  lstrip (rev (lstrip (rev (lstrip l)))) = rev (lstrip (rev (lstrip l))).
Proof.
  pose proof (lstrip_head l) as H.
  destruct (lstrip l) as [| c x]; [reflexivity |].
  cbn [rev]. rewrite (lstrip_snoc _ _ H), rev_app_distr. cbn [rev app].
  now apply lstrip_fixed.
Qed.

(** [strip] is idempotent. *)
Lemma strip_idem s : strip (strip s) = strip s.
Proof.
  unfold strip. rewrite chars_str.
  rewrite (rstrip_lstrip_head (chars s)), rev_involutive, lstrip_idem.
  reflexivity.
Qed.

Lemma prefix_two_spaces s :
  prefix "  " s = true -> exists rest, chars s = space :: space :: rest.
Proof.
  destruct s as [| c [| d s']]; cbn [prefix]; try discriminate.
  - destruct (Ascii.ascii_dec " " c); discriminate.
  - destruct (Ascii.ascii_dec " " c) as [<- |]; [| discriminate].
    destruct (Ascii.ascii_dec " " d) as [<- |]; [| discriminate].
    intros _. eexists. reflexivity.
Qed.

(** A single-spaced text does not contain two spaces in a row. *)
Lemma single_spaced_no_double s :
  single_spaced s -> contains "  " s = false.
Proof.
  unfold single_spaced. induction s as [| c s IH]; intros H.
  - reflexivity.
  - cbn [contains]. apply orb_false_iff. split.
    + destruct (prefix "  " (String c s)) eqn:Hp; [| reflexivity].
      apply prefix_two_spaces in Hp. destruct Hp as [rest Hrest].
      specialize (H [] space space rest Hrest). discriminate.
    + apply IH. intros pre x y post Heq.
      apply (H (c :: pre) x y post). unfold chars in *. cbn. now rewrite Heq.
Qed.

End StripFacts.

Section CharTables.
Import Py Re Text.

Lemma lower_char_not_upper c : AZ (lower_char c) = false.
Proof. each_char c. Qed.

Lemma space_is_space : isspace space = true.
Proof. reflexivity. Qed.

Lemma is_char_eq a c : is_char a c = true -> a = c.
Proof.
  unfold is_char, code. intros H. apply N.eqb_eq in H.
  rewrite <- (ascii_N_embedding a), <- (ascii_N_embedding c). now rewrite H.
Qed.

Lemma is_char_refl a : is_char a a = true.
Proof. unfold is_char. apply N.eqb_refl. Qed.

End CharTables.

(* ===================================================================== *)
(** ** The cleaned narratives *)
(* ===================================================================== *)

Section CleanTextFacts.
Import Py Re Text.

Lemma lower_only_chars s : only_chars not_upper (lower s).
Proof.
  unfold only_chars. rewrite chars_lower. apply Forall_map.
  apply Forall_forall. intros c _. unfold not_upper.
  now rewrite lower_char_not_upper.
Qed.

Lemma fold_sub_only_chars {A} P (f : string -> A -> string) (l : list A) :
  (forall t a, only_chars P t -> only_chars P (f t a)) ->
  forall t, only_chars P t -> only_chars P (fold_left f l t).
Proof.
  intros Hf. induction l as [| a l IH]; intros t Ht; cbn [fold_left]; auto.
Qed.

Lemma collapse_only_chars P text :
  P space = true -> only_chars P text -> only_chars P (sub ws_plus " " text).
Proof.
  intros Hsp. apply sub_fn_only_chars. intros m _.
  constructor; [exact Hsp | constructor].
Qed.

Lemma collapse_tidy text : only_chars tidy (sub ws_plus " " text).
Proof.
  destruct (chars_collapse text) as [H _]. unfold only_chars.
  eapply Forall_impl; [| exact H]. intros c [Hc | ->]; unfold tidy.
  - now rewrite Hc.
  - rewrite is_char_refl. apply orb_true_r.
Qed.

Lemma collapse_single_spaced text : single_spaced (sub ws_plus " " text).
Proof. destruct (chars_collapse text) as [_ H]. exact H. Qed.

Lemma strip_only_chars P t : only_chars P t -> only_chars P (strip t).
Proof. apply Forall_infix, chars_strip_infix. Qed.

Lemma strip_single_spaced t : single_spaced t -> single_spaced (strip t).
Proof. apply single_spaced_infix, chars_strip_infix. Qed.

Lemma plain_of_tidy c :
  (az c || digit c || isspace c) = true -> tidy c = true -> plain_char c = true.
Proof.
  unfold tidy, plain_char. intros H1 H2.
  destruct (is_char space c); [apply orb_true_r |].
  rewrite orb_false_r in *. apply negb_true_iff in H2. rewrite H2 in H1.
  now rewrite orb_false_r in H1.
Qed.

Lemma prep_clean_text_facts (text : string) :
  only_chars plain_char (Prep.clean_text text)
  /\ contains "  " (Prep.clean_text text) = false
  /\ strip (Prep.clean_text text) = Prep.clean_text text.
Proof.
  unfold Prep.clean_text.
  set (t3 := sub (Cls Prep.special_char) ""
               (Prep.strip_boilerplate (lower text))).
  change (Plus (Cls isspace)) with ws_plus.
  assert (H3 : only_chars (fun c => az c || digit c || isspace c) t3).
  { assert (Hup : only_chars not_upper t3).
    { apply sub_delete_only_chars. unfold Prep.strip_boilerplate.
      apply fold_sub_only_chars; [| apply lower_only_chars].
      intros t a. apply sub_delete_only_chars. }
    pose proof (sub_class_only_chars Prep.special_char
                  (Prep.strip_boilerplate (lower text))) as Hsp.
    fold t3 in Hsp.
    eapply only_chars_weaken; [| exact (only_chars_and _ _ _ Hup Hsp)].
    intros c Hc. apply andb_true_iff in Hc. destruct Hc as [Hu Hs].
    unfold not_upper in Hu. apply negb_true_iff in Hu.
    unfold Prep.special_char in Hs. rewrite negb_involutive, Hu in Hs.
    now rewrite orb_false_r in Hs. }
  split; [| split].
  - apply strip_only_chars.
    eapply only_chars_weaken;
      [| exact (only_chars_and _ _ _
                  (collapse_only_chars _ t3 eq_refl H3) (collapse_tidy t3))].
    intros c Hc. apply andb_true_iff in Hc. destruct Hc.
    now apply plain_of_tidy.
  - apply single_spaced_no_double, strip_single_spaced,
      collapse_single_spaced.
  - apply strip_idem.
Qed.

(** X1: prep.py: the cleaned text is made of lower-case letters, digits and
    single spaces, with no space at either end. *)
Theorem prep_clean_text_normal_form (text : string) :
  only_chars plain_char (Prep.clean_text text)
  /\ contains "  " (Prep.clean_text text) = false
  /\ strip (Prep.clean_text text) = Prep.clean_text text.
Proof. exact (prep_clean_text_facts text). Qed.

Lemma preprocessing_clean_text_facts (text : string) :
  only_chars plain_char (Preprocessing.clean_text text)
  /\ strip (Preprocessing.clean_text text) = Preprocessing.clean_text text.
Proof.
  unfold Preprocessing.clean_text.
  change (Plus (Cls isspace)) with ws_plus.
  set (t2 := sub ws_plus " " (lower text)).
  split; [| apply strip_idem].
  apply strip_only_chars.
  pose proof (sub_class_only_chars Preprocessing.special_char t2) as Hsp.
  pose proof (sub_delete_only_chars tidy (Cls Preprocessing.special_char) t2
                (collapse_tidy (lower text))) as Ht.
  eapply only_chars_weaken; [| exact (only_chars_and _ _ _ Hsp Ht)].
  intros c Hc. apply andb_true_iff in Hc. destruct Hc as [Hs Ht'].
  unfold Preprocessing.special_char in Hs. rewrite negb_involutive in Hs.
  now apply plain_of_tidy.
Qed.

(** X2: preprocessing.py: the cleaned text is made of lower-case letters,
    digits and spaces, with no space at either end.  Spaces need not be
    single: special characters are removed after the whitespace is
    collapsed, so "a - b" becomes "a", two spaces, "b". *)
Theorem preprocessing_clean_text_alphabet (text : string) :
  (only_chars plain_char (Preprocessing.clean_text text)
   /\ strip (Preprocessing.clean_text text) = Preprocessing.clean_text text)
  /\ contains "  " (Preprocessing.clean_text "a - b") = true.
Proof.
  split; [exact (preprocessing_clean_text_facts text) |].
  vm_compute. reflexivity.
Qed.

Lemma eda_kept_lower c : eda_kept c = true -> eda_kept (lower_char c) = true.
Proof. each_char c. Qed.

Lemma eda_char_of_tidy c :
  eda_kept c = true -> tidy c = true -> eda_char c = true.
Proof.
  unfold tidy, eda_kept, eda_char. intros H1 H2.
  destruct (is_char space c); [rewrite orb_true_r; reflexivity |].
  rewrite orb_false_r in *. apply negb_true_iff in H2. rewrite H2 in H1.
  now rewrite orb_false_r in H1.
Qed.

Lemma eda_clean_text_facts (text : string) :
  only_chars eda_char (Eda.clean_text text)
  /\ contains "  " (Eda.clean_text text) = false
  /\ strip (Eda.clean_text text) = Eda.clean_text text.
Proof.
  unfold Eda.clean_text.
  change (Plus Eda.sp) with ws_plus.
  match goal with
  | |- context [sub ws_plus " " ?t] => set (t4 := t)
  end.
  assert (H4 : only_chars eda_kept t4).
  { subst t4. apply sub_fn_only_chars.
    { intros m Hm. unfold only_chars in *. rewrite chars_lower.
      apply Forall_map. eapply Forall_impl; [| exact Hm].
      intros c. apply eda_kept_lower. }
    apply fold_sub_only_chars; [intros t a; apply sub_delete_only_chars |].
    eapply only_chars_weaken; [| apply sub_class_only_chars].
    intros c Hc. unfold Eda.disallowed in Hc.
    now rewrite negb_involutive in Hc. }
  split; [| split].
  - apply strip_only_chars.
    eapply only_chars_weaken;
      [| exact (only_chars_and _ _ _
                  (collapse_only_chars _ t4 eq_refl H4) (collapse_tidy t4))].
    intros c Hc. apply andb_true_iff in Hc. destruct Hc.
    now apply eda_char_of_tidy.
  - apply single_spaced_no_double, strip_single_spaced,
      collapse_single_spaced.
  - apply strip_idem.
Qed.

(** X3: complaints_modular_cleaning_eda.py: the cleaned text is made of
    lower-case letters, digits, the six punctuation marks kept and single
    spaces, with no space at either end. *)
Theorem eda_clean_text_normal_form (text : string) :
  only_chars eda_char (Eda.clean_text text)
  /\ contains "  " (Eda.clean_text text) = false
  /\ strip (Eda.clean_text text) = Eda.clean_text text.
Proof. exact (eda_clean_text_facts text). Qed.

End CleanTextFacts.

(* ===================================================================== *)
(** ** The rows the preprocessing scripts keep *)
(* ===================================================================== *)

Section ContainsFacts.
Import Py.

Lemma prefix_nil s : prefix "" s = true.
Proof. destruct s; reflexivity. Qed.

Lemma prefix_app_l x a b : prefix x a = true -> prefix x (a ++ b) = true.
Proof.
  revert x. induction a as [| c a IH]; intros x H.
  - destruct x; [apply prefix_nil | discriminate].
  - destruct x as [| d x]; [reflexivity |].
    cbn [append prefix] in *.
    destruct (ascii_dec d c); [now apply IH | discriminate].
Qed.

Lemma prefix_refl x : prefix x x = true.
Proof.
  induction x as [| c x IH]; [reflexivity |].
  cbn [prefix]. destruct (ascii_dec c c); [exact IH | contradiction].
Qed.

Lemma contains_unfold x s :
  contains x s = prefix x s
                 || match s with
                    | EmptyString => false
                    | String _ s' => contains x s'
                    end.
Proof. destruct s; reflexivity. Qed.

Lemma contains_refl x : contains x x = true.
Proof. rewrite contains_unfold, prefix_refl. reflexivity. Qed.

Lemma contains_app_l x a b : contains x a = true -> contains x (a ++ b) = true.
Proof.
  induction a as [| c a IH]; intros H.
  - rewrite contains_unfold in H. rewrite orb_false_r in H.
    rewrite contains_unfold. cbn [append].
    destruct x; [| discriminate]. now rewrite prefix_nil.
  - rewrite contains_unfold in H. cbn [append]. rewrite contains_unfold.
    apply orb_true_iff in H. destruct H as [H | H].
    + change (String c (a ++ b)) with (String c a ++ b).
      now rewrite (prefix_app_l _ _ b H).
    + rewrite (IH H). apply orb_true_r.
Qed.

Lemma contains_app_r x a b : contains x b = true -> contains x (a ++ b) = true.
Proof.
  intros H. induction a as [| c a IH]; [exact H |].
  cbn [append]. rewrite contains_unfold, IH. apply orb_true_r.
Qed.

Lemma join_contains sep parts p :
  In p parts -> contains p (join sep parts) = true.
Proof.
  induction parts as [| q rest IH]; [contradiction |].
  intros [-> | Hin].
  - destruct rest as [| r rest']; cbn [join].
    + apply contains_refl.
    + apply contains_app_l, contains_refl.
  - destruct rest as [| r rest']; [contradiction |].
    change (join sep (q :: r :: rest'))
      with (q ++ sep ++ join sep (r :: rest')).
    now apply contains_app_r, contains_app_r, IH.
Qed.

End ContainsFacts.

Section RowFacts.
Import Py Text.

(** X7: [map_to_target_product] files a complaint under
    "Buy Now, Pay Later" exactly when its category matches a loan trigger
    and no card trigger and its narrative mentions "buy now pay later" or
    "bnpl"; the category text alone never leads there. *)
Theorem buy_now_pay_later_only_from_loans (product narrative : string) :
  Preprocessing.map_to_target_product product narrative
  = Some "Buy Now, Pay Later"
  <-> (contains "credit card" (lower product)
       || contains "prepaid card" (lower product) = false
       /\ Preprocessing.any_in Preprocessing.loan_terms (lower product) = true
       /\ (contains "buy now pay later" (lower narrative)
           || contains "bnpl" (lower narrative)) = true).
Proof.
  unfold Preprocessing.map_to_target_product.
  destruct (contains "credit card" (lower product)
            || contains "prepaid card" (lower product)).
  { split; [discriminate | intros (H & _); discriminate]. }
  destruct (Preprocessing.any_in Preprocessing.loan_terms (lower product)).
  { destruct (contains "buy now pay later" (lower narrative)
              || contains "bnpl" (lower narrative)).
    - split; auto.
    - split; [discriminate | intros (_ & _ & H); discriminate]. }
  split; [| intros (_ & H & _); discriminate].
  repeat match goal with
         | |- context [if ?b then _ else _] => destruct b
         end; discriminate.
Qed.

Lemma map_to_target_product_standard product narrative name :
  Preprocessing.map_to_target_product product narrative = Some name ->
  In name Spec.standard_categories.
Proof.
  unfold Preprocessing.map_to_target_product, Spec.standard_categories.
  repeat match goal with
         | |- context [if ?b then _ else _] => destruct b
         end; intros H; try discriminate; injection H as <-; cbn; auto 6.
Qed.

Lemma filter_products_standard product name :
  Eda.filter_products product = Some name ->
  In name Spec.standard_categories.
Proof.
  unfold Eda.filter_products. rewrite filter_products_in_first_match.
  intros H. apply first_match_in_table in H. exact H.
Qed.

(** X5: every row [run_preprocessing] of preprocessing.py keeps carries the
    complaint's identifier, one of the five standard products, the cleaned
    narrative (lower-case letters, digits and spaces only) and its word
    count, which lies between 11 and 999; the raw narrative, trimmed, was
    longer than 30 characters. *)
Theorem preprocessing_kept_row
    (r : raw_row) (row : Preprocessing.filtered_row)
    (Hkept : Preprocessing.run_preprocessing_row r = Some row) :
  Preprocessing.f_complaint_id row = complaint_id r
  /\ In (Preprocessing.f_product row) Spec.standard_categories
  /\ Preprocessing.narrative_len row
     = List.length (split (Preprocessing.cleaned_narrative row))
  /\ 11 <= Preprocessing.narrative_len row <= 999
  /\ only_chars plain_char (Preprocessing.cleaned_narrative row)
  /\ exists narrative,
       raw_narrative r = Some narrative
       /\ Preprocessing.cleaned_narrative row
          = Preprocessing.clean_text narrative
       /\ 30 < len (strip narrative).
Proof.
  unfold Preprocessing.run_preprocessing_row in Hkept.
  destruct (raw_narrative r) as [narrative |]; [| discriminate].
  destruct (Preprocessing.map_to_target_product (raw_product r) narrative)
    as [product |] eqn:Hmap; [| discriminate].
  fold (word_count (Preprocessing.clean_text narrative)) in Hkept.
  set (n := word_count (Preprocessing.clean_text narrative)) in *.
  destruct (Nat.ltb_spec 30 (len (strip narrative))); [| discriminate].
  destruct (Nat.ltb_spec 10 n); [| discriminate].
  destruct (Nat.ltb_spec n 1000); [| discriminate].
  cbn [andb] in Hkept. injection Hkept as <-.
  cbn [Preprocessing.f_complaint_id Preprocessing.f_product
       Preprocessing.cleaned_narrative Preprocessing.narrative_len].
  split; [reflexivity |].
  split; [eapply map_to_target_product_standard; eauto |].
  split; [reflexivity |].
  split; [lia |].
  split; [apply preprocessing_clean_text_facts |].
  exists narrative. auto.
Qed.

(** The first scenario's record, kept with its 16 words. *)
Lemma preprocessing_kept_row_witness :
  In "Credit card" Spec.standard_categories /\ 11 <= 16 <= 999.
Proof.
  destruct (preprocessing_kept_row
              (RawRow 1 "Credit card" (Some Samples.scenario1))
              (Preprocessing.FilteredRow 1 "Credit card"
                 (lower Samples.scenario1) 16))
    as (_ & Hproduct & _ & Hlen & _).
  - vm_compute. reflexivity.
  - split; [exact Hproduct | exact Hlen].
Defined.

(** X6: every row [process_complaints] keeps has one of the five standard
    products, the raw narrative as it was, the cleaned narrative (lower-case
    letters, digits, the punctuation marks kept and single spaces) and its
    word count, which lies between 11 and 999. *)
Theorem eda_kept_row
    (r : raw_row) (row : Eda.kept_row)
    (Hkept : Eda.process_complaints_row r = Some row) :
  Eda.k_complaint_id row = complaint_id r
  /\ In (Eda.product row) Spec.standard_categories
  /\ Eda.filter_products (raw_product r) = Some (Eda.product row)
  /\ raw_narrative r = Some (Eda.narrative row)
  /\ Eda.cleaned_narrative row = Eda.clean_text (Eda.narrative row)
  /\ only_chars eda_char (Eda.cleaned_narrative row)
  /\ contains "  " (Eda.cleaned_narrative row) = false
  /\ Eda.k_word_count row = List.length (split (Eda.cleaned_narrative row))
  /\ 11 <= Eda.k_word_count row <= 999.
Proof.
  unfold Eda.process_complaints_row in Hkept.
  destruct (Eda.filter_products (raw_product r)) as [product |] eqn:Hmap;
    [| discriminate].
  destruct (raw_narrative r) as [narrative |]; [| discriminate].
  fold (word_count (Eda.clean_text narrative)) in Hkept.
  set (n := word_count (Eda.clean_text narrative)) in *.
  destruct (Nat.ltb_spec 10 n); [| discriminate].
  destruct (Nat.ltb_spec n 1000); [| discriminate].
  cbn [andb] in Hkept. injection Hkept as <-.
  cbn [Eda.k_complaint_id Eda.product Eda.narrative Eda.cleaned_narrative
       Eda.k_word_count].
  pose proof (eda_clean_text_facts narrative) as (Ha & Hb & _).
  repeat split; auto; try lia.
  eapply filter_products_standard; eauto.
Qed.

(** An eleven-word narrative under a mapped category. *)
Lemma eda_kept_row_witness :
  In "Credit card" Spec.standard_categories /\ 11 <= 11 <= 999.
Proof.
  destruct (eda_kept_row
              (RawRow 1 "Credit card" (Some Samples.eleven_words))
              (Eda.KeptRow 1 "Credit card" Samples.eleven_words
                 Samples.eleven_words 11))
    as (_ & Hproduct & _ & _ & _ & _ & _ & _ & Hlen).
  - vm_compute. reflexivity.
  - split; [exact Hproduct | exact Hlen].
Defined.

Lemma isin_In product l : Prep.isin product l = true -> In product l.
Proof.
  unfold Prep.isin. intros H. apply existsb_exists in H.
  destruct H as (x & Hx & Heq). apply String.eqb_eq in Heq. now subst.
Qed.

Lemma trimmed_head s :
  strip s = s ->
  match chars s with c :: _ => isspace c = false | [] => True end.
Proof.
  intros H. rewrite <- H. unfold strip. rewrite chars_str.
  rewrite <- rstrip_lstrip_head. apply lstrip_head.
Qed.

Lemma split_from_started cur l : cur <> [] -> split_from cur l <> [].
Proof.
  revert cur. induction l as [| c l IH]; intros cur Hcur; cbn [split_from].
  - destruct cur; [contradiction | discriminate].
  - destruct (isspace c).
    + destruct cur; [contradiction | discriminate].
    + apply IH. discriminate.
Qed.

(** A trimmed, non-empty text has a word. *)
Lemma trimmed_has_word s : strip s = s -> s <> "" -> 1 <= word_count s.
Proof.
  intros Ht Hne. pose proof (trimmed_head s Ht) as Hh.
  unfold word_count, split.
  destruct (chars s) as [| c l] eqn:Hc.
  - exfalso. apply Hne. rewrite <- (str_chars s), Hc. reflexivity.
  - cbn [split_from]. rewrite Hh.
    assert (H : split_from [c] l <> [])
      by (apply split_from_started; discriminate).
    destruct (split_from [c] l); [contradiction | cbn; lia].
Qed.

Lemma len_zero s : len s = 0 -> s = "".
Proof. destruct s; [reflexivity | discriminate]. Qed.

Lemma prep_saved_row_facts
    (r : raw_row) (row : Prep.saved_row)
    (Hsaved : Prep.run_preprocessing_row r = Some row) :
  Prep.Complaint_ID row = complaint_id r
  /\ Prep.Product row = raw_product r
  /\ In (Prep.Product row) Prep.target_products
  /\ raw_narrative r <> None
  /\ Prep.Cleaned_Narrative row <> ""
  /\ 1 <= List.length (split (Prep.Cleaned_Narrative row))
  /\ only_chars plain_char (Prep.Cleaned_Narrative row)
  /\ contains "  " (Prep.Cleaned_Narrative row) = false
  /\ strip (Prep.Cleaned_Narrative row) = Prep.Cleaned_Narrative row.
Proof.
  unfold Prep.run_preprocessing_row in Hsaved.
  destruct (Prep.isin (raw_product r) Prep.target_products) eqn:Hin;
    [| discriminate].
  destruct (raw_narrative r) as [narrative |]; [| discriminate].
  pose proof (prep_clean_text_facts narrative) as (Ha & Hb & Hc).
  rewrite Hc in Hsaved.
  destruct (Nat.ltb_spec 0 (len (Prep.clean_text narrative))) as [Hlen |];
    [| discriminate].
  injection Hsaved as <-.
  cbn [Prep.Complaint_ID Prep.Product Prep.Cleaned_Narrative].
  assert (Hne : Prep.clean_text narrative <> "").
  { intros Heq. rewrite Heq in Hlen. cbn in Hlen. lia. }
  repeat split; auto.
  - now apply isin_In.
  - discriminate.
  - now apply trimmed_has_word.
Qed.

(** X4: every row [run_preprocessing] of prep.py saves carries the
    complaint's identifier and its product, unchanged and one of the five
    target products, and a cleaned narrative that is not empty, has at least
    one word, and is made of lower-case letters, digits and single spaces
    with no space at either end. *)
Theorem prep_saved_row
    (r : raw_row) (row : Prep.saved_row)
    (Hsaved : Prep.run_preprocessing_row r = Some row) :
  Prep.Complaint_ID row = complaint_id r
  /\ Prep.Product row = raw_product r
  /\ In (Prep.Product row) Prep.target_products
  /\ raw_narrative r <> None
  /\ Prep.Cleaned_Narrative row <> ""
  /\ 1 <= List.length (split (Prep.Cleaned_Narrative row))
  /\ only_chars plain_char (Prep.Cleaned_Narrative row)
  /\ contains "  " (Prep.Cleaned_Narrative row) = false
  /\ strip (Prep.Cleaned_Narrative row) = Prep.Cleaned_Narrative row.
Proof. exact (prep_saved_row_facts r row Hsaved). Qed.

(** The first scenario's record, as prep.py saves it. *)
Lemma prep_saved_row_witness :
  In "Credit card" Prep.target_products
  /\ 1 <= List.length
            (split "my credit card interest rate was increased without notice").
Proof.
  destruct (prep_saved_row
              (RawRow 1 "Credit card" (Some Samples.scenario1))
              (Prep.SavedRow 1 "Credit card"
                 "my credit card interest rate was increased without notice"))
    as (_ & _ & Hproduct & _ & _ & Hwords & _).
  - vm_compute. reflexivity.
  - split; [exact Hproduct | exact Hwords].
Defined.

End RowFacts.

(* ===================================================================== *)
(** ** From the saved rows to the splitter *)
(* ===================================================================== *)

Section IndexerFacts.
Import Py Text EmbedIndex.

Variable split_documents : splitter_config -> list Document -> list Document.

(** X9: the documents the row loop collects are the splitter's chunks of the
    rows whose trimmed narrative is not empty, one call per row, in row
    order; a row whose narrative cell is missing is among them, read as the
    text "nan". *)
Theorem documents_come_from_the_indexed_rows
    (df : list csv_row) (id : Z) (product : string) :
  documents split_documents df
  = flat_map (fun row => split_documents text_splitter_config
                           [Frames.document_of row])
      (filter Frames.is_indexed df)
  /\ Frames.is_indexed (CsvRow None id product) = true
  /\ page_content (Frames.document_of (CsvRow None id product)) = "nan".
Proof.
  split; [| split; reflexivity].
  unfold documents. induction df as [| row df IH]; [reflexivity |].
  cbn [flat_map filter]. rewrite IH.
  unfold chunks_of_row at 1, Frames.is_indexed, Frames.document_of.
  fold (Frames.narrative_of row).
  destruct (String.eqb (Frames.narrative_of row) ""); cbn [negb];
    [reflexivity |].
  cbn [flat_map]. reflexivity.
Qed.

(** X8: a row saved by prep.py is never skipped by the indexer when its
    narrative cell is read back as the text that was written: the cleaned
    narrative then passes the loop's test and goes to the splitter as it is
    (trimming changes nothing), as one document.  That the cell is read back
    as written is the hypothesis [Hread]; it is no property of the reader,
    which takes some texts for missing values or numbers. *)
Theorem prep_rows_reach_the_splitter
    (r : raw_row) (row : Prep.saved_row) (csv : csv_row)
    (Hsaved : Prep.run_preprocessing_row r = Some row)
    (Hread : Cleaned_Narrative csv = Some (Prep.Cleaned_Narrative row)) :
  Frames.is_indexed csv = true
  /\ chunks_of_row split_documents csv
     = split_documents text_splitter_config
         [Doc (Prep.Cleaned_Narrative row)
            [ ("complaint_id", PyInt (Complaint_ID csv));
              ("product", PyStr (Product csv));
              ("original_text_length",
               PyInt (Z.of_nat (len (Prep.Cleaned_Narrative row)))) ]].
Proof.
  destruct (prep_saved_row_facts r row Hsaved)
    as (_ & _ & _ & _ & Hne & _ & _ & _ & Ht).
  unfold Frames.is_indexed, Frames.narrative_of, chunks_of_row.
  rewrite Hread. cbn [str_of_cell]. rewrite Ht.
  destruct (String.eqb_spec (Prep.Cleaned_Narrative row) "");
    [contradiction | split; reflexivity].
Qed.

End IndexerFacts.

(** The first scenario's record, with the splitter that leaves documents
    whole. *)
Lemma prep_rows_reach_the_splitter_witness :
  EmbedIndex.chunks_of_row MoreSamples.whole_documents
    (EmbedIndex.CsvRow
       (Some "my credit card interest rate was increased without notice")
       1 "Credit card")
  = [Doc "my credit card interest rate was increased without notice"
       [ ("complaint_id", PyInt 1);
         ("product", PyStr "Credit card");
         ("original_text_length", PyInt 57) ]].
Proof.
  refine (proj2 (prep_rows_reach_the_splitter MoreSamples.whole_documents
                   (RawRow 1 "Credit card" (Some Samples.scenario1))
                   (Prep.SavedRow 1 "Credit card"
                      "my credit card interest rate was increased without notice")
                   (EmbedIndex.CsvRow
                      (Some "my credit card interest rate was increased without notice")
                      1 "Credit card")
                   _ _)).
  - vm_compute. reflexivity.
  - reflexivity.
Defined.


(* ===================================================================== *)
(** ** Runs of the pipeline *)
(* ===================================================================== *)

Section PipelineFacts.
Import Py Rag Runs Calls Samples.

Lemma retrieve_chunks_value question db k w :
  fst (retrieve_chunks question db k w) = Returned (retrieved db question k).
Proof.
  rewrite retrieve_chunks_run. unfold retrieved.
  destruct db as [store |]; [| reflexivity].
  destruct (similarity_search store question k); reflexivity.
Qed.

Lemma run_rag_pipeline_value
    (question : string) (db : option FAISS) (llm_pipeline : option Pipeline)
    (k : Z) (w : world) :
  exists answer,
    fst (run_rag_pipeline question db llm_pipeline k w)
    = Returned (answer, retrieved db question k).
Proof.
  rewrite run_rag_pipeline_run, retrieve_chunks_value. cbn zeta.
  destruct (generate_answer_returns question (retrieved db question k)
              llm_pipeline (snd (retrieve_chunks question db k w)))
    as [answer ->].
  exists answer. reflexivity.
Qed.

(** X10: [run_rag_pipeline] never raises, whatever the store and the model
    do, and its sources are what the store's search returned (none when the
    store is absent or its search raised). *)
Theorem run_rag_pipeline_never_raises
    (question : string) (db : option FAISS) (llm_pipeline : option Pipeline)
    (k : Z) (w : world) :
  exists answer,
    fst (run_rag_pipeline question db llm_pipeline k w)
    = Returned (answer, retrieved db question k).
Proof. exact (run_rag_pipeline_value question db llm_pipeline k w). Qed.

Lemma external_calls_app a b :
  external_calls (a ++ b) = (external_calls a ++ external_calls b)%list.
Proof. apply filter_app. Qed.

Lemma generate_answer_trace question chunks llm_pipeline w :
  exists evs,
    trace (snd (generate_answer question chunks llm_pipeline w))
    = (trace w ++ evs)%list
    /\ external_calls evs
       = match llm_pipeline, chunks with
         | Some _, _ :: _ => [Generated (call_args question chunks)]
         | _, _ => []
         end.
Proof.
  destruct llm_pipeline as [llm |];
    [| exists []; cbn; now rewrite app_nil_r].
  destruct chunks as [| c cs]; [exists []; cbn; now rewrite app_nil_r |].
  rewrite generate_answer_run.
  set (args := call_args question (c :: cs)).
  destruct (fst (llm args (rng w))) as [[| first rest] | e];
    [| destruct (lookup "generated_text" first) |];
    cbn [snd log_failure after_call announce trace];
    rewrite <- ?app_assoc; eexists; (split; [reflexivity |]); reflexivity.
Qed.

Lemma retrieve_chunks_trace question db k w :
  exists evs,
    trace (snd (retrieve_chunks question db k w)) = (trace w ++ evs)%list
    /\ external_calls evs
       = match db with Some _ => [Searched question k] | None => [] end.
Proof.
  rewrite retrieve_chunks_run.
  destruct db as [store |].
  - destruct (similarity_search store question k);
      cbn [snd add_line search_note trace];
      rewrite <- ?app_assoc; eexists; (split; [reflexivity |]); reflexivity.
  - eexists. split; reflexivity.
Qed.

(** X11: one run of [run_rag_pipeline] searches the store once, with the
    question and [k] as given, when there is a store, and calls the model
    once, on the prompt built from the question and the retrieved chunks,
    when a model is loaded and something was retrieved; it makes no other
    call. *)
Theorem run_rag_pipeline_calls
    (question : string) (db : option FAISS) (llm_pipeline : option Pipeline)
    (k : Z) (w : world) :
  exists evs,
    trace (snd (run_rag_pipeline question db llm_pipeline k w))
    = (trace w ++ evs)%list
    /\ external_calls evs
       = (match db with Some _ => [Searched question k] | None => [] end
          ++ match llm_pipeline, retrieved db question k with
             | Some _, _ :: _ =>
                 [Generated (call_args question (retrieved db question k))]
             | _, _ => []
             end)%list.
Proof.
  rewrite run_rag_pipeline_run, retrieve_chunks_value. cbn zeta.
  destruct (retrieve_chunks_trace question db k w) as (evs1 & Ht1 & Hc1).
  set (w1 := snd (retrieve_chunks question db k w)) in *.
  destruct (generate_answer_trace question (retrieved db question k)
              llm_pipeline w1) as (evs2 & Ht2 & Hc2).
  exists (evs1 ++ evs2)%list.
  rewrite external_calls_app, Hc1, Hc2, app_assoc, <- Ht1, <- Ht2.
  split; [| reflexivity].
  destruct (fst (generate_answer question (retrieved db question k)
                   llm_pipeline w1)); reflexivity.
Qed.

(** X12: what [generate_answer] returns once the model has answered: the
    [generated_text] of the first generation, as it is; the fixed error
    message when the model returns no generation or the first one has no
    [generated_text]. *)
Theorem generate_answer_reads_first_generation
    (question : string) (context_chunks : list Document) (llm : Pipeline)
    (w : world) (outputs : list generation)
    (Hchunks : context_chunks <> [])
    (Hout : fst (llm (call_args question context_chunks) (rng w))
            = Returned outputs) :
  fst (generate_answer question context_chunks (Some llm) w)
  = Returned (answer_of outputs).
Proof.
  destruct context_chunks as [| c cs]; [contradiction |].
  rewrite generate_answer_run, Hout. unfold answer_of.
  destruct outputs as [| first rest]; [reflexivity |].
  destruct (lookup "generated_text" first); reflexivity.
Qed.

(** A model whose first generation lacks [generated_text]. *)
Lemma generate_answer_reads_first_generation_witness :
  fst (generate_answer "what went wrong?" [Samples.doc1]
         (Some MoreSamples.odd_model) Samples.w0)
  = Returned GENERATION_ERROR.
Proof.
  refine (generate_answer_reads_first_generation "what went wrong?"
            [Samples.doc1] MoreSamples.odd_model Samples.w0
            [[("summary_text", "billing errors")]] _ _).
  - discriminate.
  - reflexivity.
Defined.

End PipelineFacts.

Section PromptFacts.
Import Py Rag Runs Calls.

Lemma prompt_holds_question question chunks :
  contains question (prompt_for question chunks) = true.
Proof.
  unfold prompt_for, format_prompt.
  do 15 apply contains_app_r. apply contains_app_l, contains_refl.
Qed.

Lemma prompt_holds_chunk question chunks d :
  In d chunks -> contains (page_content d) (prompt_for question chunks) = true.
Proof.
  intros Hin. unfold prompt_for, format_prompt.
  do 11 apply contains_app_r. apply contains_app_l.
  apply join_contains. now apply in_map.
Qed.

(** X13: the prompt the model receives holds the question and the text of
    every chunk of the context, word for word. *)
Theorem model_prompt_holds_question_and_chunks
    (question : string) (context_chunks : list Document) (llm : Pipeline)
    (w : world) (Hchunks : context_chunks <> []) :
  exists evs args,
    trace (snd (generate_answer question context_chunks (Some llm) w))
    = (trace w ++ evs)%list
    /\ external_calls evs = [Generated args]
    /\ contains question (prompt args) = true
    /\ forall d, In d context_chunks ->
                 contains (page_content d) (prompt args) = true.
Proof.
  destruct (generate_answer_trace question context_chunks (Some llm) w)
    as (evs & Ht & Hc).
  exists evs, (call_args question context_chunks).
  destruct context_chunks as [| c cs]; [contradiction |].
  split; [exact Ht |]. split; [exact Hc |].
  split; [apply prompt_holds_question |].
  intros d Hd. now apply prompt_holds_chunk.
Qed.

(** Two chunks and the toy model. *)
Lemma model_prompt_holds_question_and_chunks_witness :
  exists evs args,
    trace (snd (generate_answer "what went wrong?"
                  [Samples.doc1; MoreSamples.doc2]
                  (Some Samples.toy_model) Samples.w0))
    = (trace Samples.w0 ++ evs)%list
    /\ external_calls evs = [Generated args]
    /\ contains "what went wrong?" (prompt args) = true
    /\ forall d, In d [Samples.doc1; MoreSamples.doc2] ->
                 contains (page_content d) (prompt args) = true.
Proof.
  apply model_prompt_holds_question_and_chunks. discriminate.
Defined.

End PromptFacts.

(* ===================================================================== *)
(** ** Loading the components *)
(* ===================================================================== *)

Section LoaderFacts.
Import Py Rag Loader.

(** X14: [load_components] never raises and never returns part of the
    system: its result is the three components, which it gives exactly when
    the three constructors succeed and the store's directory exists (the
    generator is then seeded with 42), or three [None]s. *)
Theorem load_components_all_or_nothing (env : environment) (w : world) :
  (exists db embeddings llm_pipeline,
      all_load env db embeddings llm_pipeline
      /\ fst (load_components env w)
         = Returned (Some db, Some embeddings, Some llm_pipeline)
      /\ rng (snd (load_components env w)) = 42%N)
  \/ ((forall db embeddings llm_pipeline,
          ~ all_load env db embeddings llm_pipeline)
      /\ fst (load_components env w) = Returned (None, None, None)
      /\ rng (snd (load_components env w)) = rng w).
Proof.
  unfold load_components, all_load, bind, print, emit, ret, nothing, set_seed.
  cbn [trace rng].
  destruct (SentenceTransformerEmbeddings env "all-MiniLM-L6-v2")
    as [embeddings | [m | m]] eqn:He.
  2, 3: right; split;
    [ intros db emb llm (H & _); discriminate | split; reflexivity ].
  destruct (path_exists env (VECTOR_STORE_PATH env)) eqn:Hp.
  2: { right. split; [| split; reflexivity].
       intros db emb llm (_ & H & _). discriminate. }
  destruct (load_local env (VECTOR_STORE_PATH env) embeddings true)
    as [db | [m | m]] eqn:Hd.
  2, 3: right; split;
    [ intros db emb llm (H1 & _ & H2 & _); injection H1 as <-;
      rewrite Hd in H2; discriminate
    | split; reflexivity ].
  destruct (pipeline env "text2text-generation" "t5-small" (device env))
    as [llm | e] eqn:Hl.
  - left. exists db, embeddings, llm. cbn. auto.
  - right. split; [| split; reflexivity].
    intros db' emb llm (H1 & _ & H2 & H3). discriminate.
Qed.

End LoaderFacts.

(* ===================================================================== *)
(** ** The chat callback *)
(* ===================================================================== *)

Section AppFacts.
Import Py Rag Runs Calls Loader App.

(** X15: with a component missing, [respond] yields nothing: the apology
    is the generator's return value, and neither the store nor the model is
    touched. *)
Theorem respond_without_components_yields_nothing
    (user_message : string) (history : chat)
    (db : option FAISS) (embeddings : option Embeddings)
    (llm_pipeline : option Pipeline) (w : world)
    (Hmissing : db = None \/ embeddings = None \/ llm_pipeline = None) :
  respond user_message history db embeddings llm_pipeline w
  = (Returned ([], Some (history ++ [Msg "assistant" NOT_READY])%list), w).
Proof.
  unfold respond.
  replace (all_loaded db embeddings llm_pipeline) with false; [reflexivity |].
  destruct db, embeddings, llm_pipeline; try reflexivity.
  destruct Hmissing as [H | [H | H]]; discriminate.
Qed.

(** Nothing was loaded. *)
Lemma respond_without_components_yields_nothing_witness :
  respond "hello" [] None None None Samples.w0
  = (Returned ([], Some [Msg "assistant" NOT_READY]), Samples.w0).
Proof.
  exact (respond_without_components_yields_nothing "hello" [] None None None
           Samples.w0 (or_introl eq_refl)).
Defined.

(** X16: with the three components loaded, [respond] never raises and yields
    exactly two updates: the history with the user's message and the
    "Searching..." notice, then the history with the user's message and the
    pipeline's answer followed by the sources. *)
Theorem respond_yields_notice_then_answer
    (user_message : string) (history : chat)
    (store : FAISS) (embeddings : Embeddings) (llm : Pipeline) (w : world) :
  exists answer,
    fst (run_rag_pipeline user_message (Some store) (Some llm) 5 w)
    = Returned (answer, retrieved (Some store) user_message 5)
    /\ fst (respond user_message history (Some store) (Some embeddings)
              (Some llm) w)
       = Returned
           ([ (history ++ [Msg "user" user_message;
                           Msg "assistant" SEARCHING])%list;
              (history ++ [Msg "user" user_message;
                           Msg "assistant"
                             (answer
                              ++ sources_text
                                   (retrieved (Some store) user_message 5))])%list ],
            None).
Proof.
  destruct (run_rag_pipeline_value user_message (Some store) (Some llm)
              5 w) as [answer Hrun].
  exists answer. split; [exact Hrun |].
  unfold respond. cbn [all_loaded negb].
  unfold bind at 1. unfold try_except. unfold bind at 1.
  destruct (run_rag_pipeline user_message (Some store) (Some llm) 5 w)
    as [r w1].
  cbn [fst] in Hrun. subst r. reflexivity.
Qed.







Lemma replace_star_escapes l :
  forall escaped,
    marks_escaped (Re.is_char star) escaped
      (replace_list star [backslash; star] l) = true.
Proof.
  induction l as [| c l IH]; intros escaped; [reflexivity |].
  cbn [replace_list]. destruct (Re.is_char star c) eqn:Hc.
  - cbn [app]. change (marks_escaped (Re.is_char star) escaped
                         (backslash :: star :: ?x))
      with (marks_escaped (Re.is_char star) false x).
    apply IH.
  - cbn [marks_escaped]. rewrite Hc, IH. reflexivity.
Qed.

Lemma is_char_star_underscore c :
  Re.is_char star c = true -> Re.is_char underscore c = false.
Proof.
  intros H. apply is_char_eq in H. subst c. reflexivity.
Qed.

Lemma replace_underscore_escapes l :
  forall escaped,
    marks_escaped (Re.is_char star) escaped l = true ->
    marks_escaped emphasis escaped
      (replace_list underscore [backslash; underscore] l) = true.
Proof.
  induction l as [| c l IH]; intros escaped H; [reflexivity |].
  cbn [marks_escaped] in H. apply andb_true_iff in H. destruct H as [Hc Hl].
  cbn [replace_list]. destruct (Re.is_char underscore c) eqn:Hu.
  - apply is_char_eq in Hu. subst c. cbn [app].
    change (marks_escaped emphasis escaped (backslash :: underscore :: ?x))
      with (marks_escaped emphasis false x).
    apply IH. exact Hl.
  - cbn [marks_escaped]. unfold emphasis at 1. rewrite Hu, orb_false_r.
    rewrite Hc. apply IH. exact Hl.
Qed.

(** X18: in the preview of a source, every [*] and every [_] has a backslash
    just before it, whatever the chunk holds. *)
Theorem content_preview_is_escaped (doc : Document) :
  marks_escaped emphasis false (chars (content_preview doc)) = true.
Proof.
  unfold content_preview, replace. rewrite !chars_str.
  apply replace_underscore_escapes, replace_star_escapes.
Qed.

End AppFacts.
